(** * users/views.py, users/serializers.py: profile view sets and the
      available-riders cache

    A shallow embedding of the Passenger and Rider view sets of the users
    application.  A request handler is a function of the clock reading and
    the request, run over an explicit world: the two profile tables, the
    cache and a trace of the store and cache operations performed. *)

From Stdlib Require Import ZArith Lia Ascii.
From stdpp Require Import base option list gmap strings pretty.

Local Open Scope Z_scope.

(** ** Values *)

(** Modelled from the spec: users/models.py is absent; a coordinate is a
    decimal, held here in fixed point (millionths of a degree). *)
Definition Decimal := Z.

Module User.
(** Modelled from the spec: users/models.py is absent; the fields are the
    ones UserSerializer lists, the staff flag read by get_queryset and the
    credential that no serializer exposes. *)
Record t := mk {
  id : Z;
  email : string;
  first_name : string;
  last_name : string;
  phone_number : string;
  user_type : string;
  date_joined : Z;
  is_staff : bool;
  password : string;
}.

(** Model.__eq__: two instances of one model are equal when their primary
    keys are. *)
Definition eqb (u v : t) : bool := bool_decide (id u = id v).
End User.

(** A Python value as it occurs in request.data, in validated_data and in
    the keyword arguments of serializer.save(). *)
Inductive pyval :=
| VNone
| VBool (b : bool)
| VInt (z : Z)
| VDec (d : Decimal)
| VStr (s : string)
| VUser (u : User.t).

Definition is_not_None (v : pyval) : bool :=
  match v with VNone => false | _ => true end.

(** dict.get(key): the value, or None when the key is absent. *)
Definition dict_get (d : gmap string pyval) (k : string) : pyval :=
  default VNone (d !! k).

(** ** Data model *)

(** Modelled from the spec: users/models.py is absent; the three values of
    verification_status. *)
Inductive VerificationStatus := pending | approved | rejected.

#[global] Instance VerificationStatus_eq_dec : EqDecision VerificationStatus.
Proof. solve_decision. Defined.

Module Passenger.
(** Modelled from the spec: users/models.py is absent; the fields are the
    ones PassengerSerializer lists, typed as in the data model of the
    spec. *)
Record t := mk {
  id : Z;
  user : User.t;
  passenger_id : string;
  preferred_payment_method : string;
  home_address : string;
  profile_picture : string;
  preferred_language : string;
  emergency_contact : string;
  is_verified : bool;
  created_at : Z;
  updated_at : Z;
}.

Definition set_passenger_id (x : string) (r : t) : t :=
  mk (id r) (user r) x (preferred_payment_method r) (home_address r)
     (profile_picture r) (preferred_language r) (emergency_contact r)
     (is_verified r) (created_at r) (updated_at r).
Definition set_preferred_payment_method (x : string) (r : t) : t :=
  mk (id r) (user r) (passenger_id r) x (home_address r) (profile_picture
     r) (preferred_language r) (emergency_contact r) (is_verified r)
     (created_at r) (updated_at r).
Definition set_home_address (x : string) (r : t) : t :=
  mk (id r) (user r) (passenger_id r) (preferred_payment_method r) x
     (profile_picture r) (preferred_language r) (emergency_contact r)
     (is_verified r) (created_at r) (updated_at r).
Definition set_profile_picture (x : string) (r : t) : t :=
  mk (id r) (user r) (passenger_id r) (preferred_payment_method r)
     (home_address r) x (preferred_language r) (emergency_contact r)
     (is_verified r) (created_at r) (updated_at r).
Definition set_preferred_language (x : string) (r : t) : t :=
  mk (id r) (user r) (passenger_id r) (preferred_payment_method r)
     (home_address r) (profile_picture r) x (emergency_contact r)
     (is_verified r) (created_at r) (updated_at r).
Definition set_emergency_contact (x : string) (r : t) : t :=
  mk (id r) (user r) (passenger_id r) (preferred_payment_method r)
     (home_address r) (profile_picture r) (preferred_language r) x
     (is_verified r) (created_at r) (updated_at r).
Definition set_is_verified (x : bool) (r : t) : t :=
  mk (id r) (user r) (passenger_id r) (preferred_payment_method r)
     (home_address r) (profile_picture r) (preferred_language r)
     (emergency_contact r) x (created_at r) (updated_at r).
Definition set_id (x : Z) (r : t) : t :=
  mk x (user r) (passenger_id r) (preferred_payment_method r) (home_address r)
     (profile_picture r) (preferred_language r) (emergency_contact r)
     (is_verified r) (created_at r) (updated_at r).
Definition set_user (x : User.t) (r : t) : t :=
  mk (id r) x (passenger_id r) (preferred_payment_method r) (home_address r)
     (profile_picture r) (preferred_language r) (emergency_contact r)
     (is_verified r) (created_at r) (updated_at r).
Definition set_created_at (x : Z) (r : t) : t :=
  mk (id r) (user r) (passenger_id r) (preferred_payment_method r)
     (home_address r) (profile_picture r) (preferred_language r)
     (emergency_contact r) (is_verified r) x (updated_at r).
Definition set_updated_at (x : Z) (r : t) : t :=
  mk (id r) (user r) (passenger_id r) (preferred_payment_method r)
     (home_address r) (profile_picture r) (preferred_language r)
     (emergency_contact r) (is_verified r) (created_at r) x.
End Passenger.

Module Rider.
(** Modelled from the spec: users/models.py is absent; the fields are the
    ones RiderSerializer lists, typed as in the data model of the spec
    (verification_status an enumeration, the coordinates nullable
    decimals). *)
Record t := mk {
  id : Z;
  user : User.t;
  profile_picture : string;
  license_number : string;
  license_picture : string;
  id_number_picture : string;
  verification_status : VerificationStatus;
  verification_notes : string;
  is_available : bool;
  current_latitude : option Decimal;
  current_longitude : option Decimal;
  average_rating : Z;
  total_rides : Z;
  total_earnings : Z;
  created_at : Z;
  updated_at : Z;
}.

Definition set_profile_picture (x : string) (r : t) : t :=
  mk (id r) (user r) x (license_number r) (license_picture r)
     (id_number_picture r) (verification_status r) (verification_notes r)
     (is_available r) (current_latitude r) (current_longitude r)
     (average_rating r) (total_rides r) (total_earnings r) (created_at r)
     (updated_at r).
Definition set_license_number (x : string) (r : t) : t :=
  mk (id r) (user r) (profile_picture r) x (license_picture r)
     (id_number_picture r) (verification_status r) (verification_notes r)
     (is_available r) (current_latitude r) (current_longitude r)
     (average_rating r) (total_rides r) (total_earnings r) (created_at r)
     (updated_at r).
Definition set_license_picture (x : string) (r : t) : t :=
  mk (id r) (user r) (profile_picture r) (license_number r) x
     (id_number_picture r) (verification_status r) (verification_notes r)
     (is_available r) (current_latitude r) (current_longitude r)
     (average_rating r) (total_rides r) (total_earnings r) (created_at r)
     (updated_at r).
Definition set_id_number_picture (x : string) (r : t) : t :=
  mk (id r) (user r) (profile_picture r) (license_number r)
     (license_picture r) x (verification_status r) (verification_notes r)
     (is_available r) (current_latitude r) (current_longitude r)
     (average_rating r) (total_rides r) (total_earnings r) (created_at r)
     (updated_at r).
Definition set_verification_status (x : VerificationStatus) (r : t) : t :=
  mk (id r) (user r) (profile_picture r) (license_number r)
     (license_picture r) (id_number_picture r) x (verification_notes r)
     (is_available r) (current_latitude r) (current_longitude r)
     (average_rating r) (total_rides r) (total_earnings r) (created_at r)
     (updated_at r).
Definition set_verification_notes (x : string) (r : t) : t :=
  mk (id r) (user r) (profile_picture r) (license_number r)
     (license_picture r) (id_number_picture r) (verification_status r) x
     (is_available r) (current_latitude r) (current_longitude r)
     (average_rating r) (total_rides r) (total_earnings r) (created_at r)
     (updated_at r).
Definition set_is_available (x : bool) (r : t) : t :=
  mk (id r) (user r) (profile_picture r) (license_number r)
     (license_picture r) (id_number_picture r) (verification_status r)
     (verification_notes r) x (current_latitude r) (current_longitude r)
     (average_rating r) (total_rides r) (total_earnings r) (created_at r)
     (updated_at r).
Definition set_current_latitude (x : option Decimal) (r : t) : t :=
  mk (id r) (user r) (profile_picture r) (license_number r)
     (license_picture r) (id_number_picture r) (verification_status r)
     (verification_notes r) (is_available r) x (current_longitude r)
     (average_rating r) (total_rides r) (total_earnings r) (created_at r)
     (updated_at r).
Definition set_current_longitude (x : option Decimal) (r : t) : t :=
  mk (id r) (user r) (profile_picture r) (license_number r)
     (license_picture r) (id_number_picture r) (verification_status r)
     (verification_notes r) (is_available r) (current_latitude r) x
     (average_rating r) (total_rides r) (total_earnings r) (created_at r)
     (updated_at r).
Definition set_id (x : Z) (r : t) : t :=
  mk x (user r) (profile_picture r) (license_number r) (license_picture r)
     (id_number_picture r) (verification_status r) (verification_notes r)
     (is_available r) (current_latitude r) (current_longitude r)
     (average_rating r) (total_rides r) (total_earnings r) (created_at r)
     (updated_at r).
Definition set_user (x : User.t) (r : t) : t :=
  mk (id r) x (profile_picture r) (license_number r) (license_picture r)
     (id_number_picture r) (verification_status r) (verification_notes r)
     (is_available r) (current_latitude r) (current_longitude r)
     (average_rating r) (total_rides r) (total_earnings r) (created_at r)
     (updated_at r).
Definition set_average_rating (x : Z) (r : t) : t :=
  mk (id r) (user r) (profile_picture r) (license_number r)
     (license_picture r) (id_number_picture r) (verification_status r)
     (verification_notes r) (is_available r) (current_latitude r)
     (current_longitude r) x (total_rides r) (total_earnings r) (created_at r)
     (updated_at r).
Definition set_total_rides (x : Z) (r : t) : t :=
  mk (id r) (user r) (profile_picture r) (license_number r)
     (license_picture r) (id_number_picture r) (verification_status r)
     (verification_notes r) (is_available r) (current_latitude r)
     (current_longitude r) (average_rating r) x (total_earnings r)
     (created_at r) (updated_at r).
Definition set_total_earnings (x : Z) (r : t) : t :=
  mk (id r) (user r) (profile_picture r) (license_number r)
     (license_picture r) (id_number_picture r) (verification_status r)
     (verification_notes r) (is_available r) (current_latitude r)
     (current_longitude r) (average_rating r) (total_rides r) x (created_at r)
     (updated_at r).
Definition set_created_at (x : Z) (r : t) : t :=
  mk (id r) (user r) (profile_picture r) (license_number r)
     (license_picture r) (id_number_picture r) (verification_status r)
     (verification_notes r) (is_available r) (current_latitude r)
     (current_longitude r) (average_rating r) (total_rides r)
     (total_earnings r) x (updated_at r).
Definition set_updated_at (x : Z) (r : t) : t :=
  mk (id r) (user r) (profile_picture r) (license_number r)
     (license_picture r) (id_number_picture r) (verification_status r)
     (verification_notes r) (is_available r) (current_latitude r)
     (current_longitude r) (average_rating r) (total_rides r)
     (total_earnings r) (created_at r) x.
End Rider.

(** ** Serialized views (serializers.py, Meta.fields) *)

(** UserSerializer.Meta.fields. *)
Record UserView := {
  uv_id : Z;
  uv_email : string;
  uv_first_name : string;
  uv_last_name : string;
  uv_phone_number : string;
  uv_user_type : string;
  uv_date_joined : Z;
}.

(** PassengerSerializer.Meta.fields, user nested through UserSerializer. *)
Record PassengerView := {
  pv_id : Z;
  pv_user : UserView;
  pv_passenger_id : string;
  pv_preferred_payment_method : string;
  pv_home_address : string;
  pv_profile_picture : string;
  pv_preferred_language : string;
  pv_emergency_contact : string;
  pv_is_verified : bool;
  pv_created_at : Z;
  pv_updated_at : Z;
}.

(** RiderSerializer.Meta.fields, user nested through UserSerializer. *)
Record RiderView := {
  rv_id : Z;
  rv_user : UserView;
  rv_profile_picture : string;
  rv_license_number : string;
  rv_license_picture : string;
  rv_id_number_picture : string;
  rv_verification_status : VerificationStatus;
  rv_verification_notes : string;
  rv_is_available : bool;
  rv_current_latitude : option Decimal;
  rv_current_longitude : option Decimal;
  rv_average_rating : Z;
  rv_total_rides : Z;
  rv_total_earnings : Z;
  rv_created_at : Z;
  rv_updated_at : Z;
}.

Inductive View :=
| PassengerData (v : PassengerView)
| RiderData (v : RiderView).

(** The payload of a response (and of the cache slot). *)
Inductive Body :=
| BObject (v : View)            (* serializer.data of one instance *)
| BList (l : list View)         (* serializer.data with many=True *)
| BError (msg : string)         (* {'error': msg} *)
| BNotFound                     (* the body of a raised Http404 *)
| BInvalid                      (* the body of a raised ValidationError *)
| BServerError.                 (* an exception no handler catches *)

Record Response := { data : Body; status : Z }.

Definition HTTP_200_OK : Z := 200.
Definition HTTP_201_CREATED : Z := 201.
Definition HTTP_400_BAD_REQUEST : Z := 400.
Definition HTTP_403_FORBIDDEN : Z := 403.
Definition HTTP_404_NOT_FOUND : Z := 404.
Definition HTTP_500_INTERNAL_SERVER_ERROR : Z := 500.

(** Response(data) has status 200. *)
Definition Response_ok (b : Body) : Response :=
  {| data := b; status := HTTP_200_OK |}.

Record Request := { user : User.t; request_data : gmap string pyval }.

(** ** The world: profile tables, cache, trace *)

Inductive Table := TPassenger | TRider.

#[global] Instance Table_eq_dec : EqDecision Table.
Proof. solve_decision. Defined.

Inductive Event :=
| DbSelect (t : Table)
| DbInsert (t : Table) (pk : Z)
| DbUpdate (t : Table) (pk : Z)
| CacheGet (key : string)
| CacheSet (key : string) (timeout : Z)
| CacheDelete (key : string).

#[global] Instance Event_eq_dec : EqDecision Event.
Proof. solve_decision. Defined.

(** A cache slot: the stored payload and the instant at which it expires. *)
Record CacheEntry := { entry_value : Body; expires_at : Z }.

Record World := {
  passengers : list Passenger.t;
  riders : list Rider.t;
  cache : gmap string CacheEntry;
  trace : list Event;
}.

(** ** Handlers as state transformers with an early exit

    [inl r] is a response that ends the handler: an early [return] or an
    exception that the framework turns into a response. *)
Definition M (A : Type) : Type := World → (Response + A) * World.

#[global] Instance M_ret : MRet M := λ A a w, (inr a, w).
#[global] Instance M_bind : MBind M := λ A B f m w,
  match m w with
  | (inl r, w') => (inl r, w')
  | (inr a, w') => f a w'
  end.

Definition raise {A} (r : Response) : M A := λ w, (inl r, w).
Definition gets {A} (f : World → A) : M A := λ w, (inr (f w), w).
Definition modify (f : World → World) : M unit := λ w, (inr tt, f w).

Definition log (e : Event) : M unit :=
  modify (λ w, {| passengers := passengers w; riders := riders w;
                  cache := cache w; trace := trace w ++ [e] |}).

Definition run (m : M Response) (w : World) : Response * World :=
  match m w with
  | (inl r, w') => (r, w')
  | (inr r, w') => (r, w')
  end.

Definition Http404 {A} : M A :=
  raise {| data := BNotFound; status := HTTP_404_NOT_FOUND |}.
Definition ValidationError {A} : M A :=
  raise {| data := BInvalid; status := HTTP_400_BAD_REQUEST |}.
Definition ServerError {A} : M A :=
  raise {| data := BServerError; status := HTTP_500_INTERNAL_SERVER_ERROR |}.

(** ** django.core.cache

    The contract of the cache backend: an entry set with a timeout is
    readable until the timeout has elapsed. *)
Module Cache.
Definition set_cache (c : gmap string CacheEntry) (w : World) : World :=
  {| passengers := passengers w; riders := riders w;
     cache := c; trace := trace w |}.

(** The live payload under [key] at instant [now]. *)
Definition peek (now : Z) (key : string) (c : gmap string CacheEntry)
  : option Body :=
  match c !! key with
  | Some e => if bool_decide (now < expires_at e)
              then Some (entry_value e) else None
  | None => None
  end.

Definition get (now : Z) (key : string) : M (option Body) :=
  _ ← log (CacheGet key);
  gets (λ w, peek now key (cache w)).

Definition set (now : Z) (key : string) (value : Body) (timeout : Z)
  : M unit :=
  _ ← log (CacheSet key timeout);
  modify (λ w, set_cache
    (<[key := {| entry_value := value; expires_at := now + timeout |}]>
       (cache w)) w).

Definition delete (key : string) : M unit :=
  _ ← log (CacheDelete key);
  modify (λ w, set_cache (base.delete key (cache w)) w).
End Cache.

(** ** django.db.models: a model and its manager *)

(** What the view sets use of a model class: its table in the world, the
    primary key and the owning user of a row, the assignment of a value to
    a named attribute, and the instance that [objects.create] builds from
    its keyword arguments, given the primary key and the timestamp that the
    insertion assigns. *)
Class Model (A : Type) := {
  table : Table;
  rows : World → list A;
  set_rows : list A → World → World;
  pk : A → Z;
  owner : A → User.t;
  setattr : string → pyval → A → A;
  init : Z → Z → gmap string pyval → option A;
}.

(** The next value of the auto-incremented primary key. *)
Definition next_pk `{Model A} (l : list A) : Z :=
  1 + foldr Z.max 0 (pk <$> l).

Module Manager.
Section manager.
Context `{Model A}.

Definition all : M (list A) :=
  _ ← log (DbSelect table);
  gets rows.

Definition filter (P : A → Prop) `{∀ x, Decision (P x)} : M (list A) :=
  l ← all;
  mret (base.filter P l).

(** [objects.get(...)]: [None] stands for DoesNotExist, which both
    callers catch; MultipleObjectsReturned is caught by neither. *)
Definition get (P : A → Prop) `{∀ x, Decision (P x)} : M (option A) :=
  l ← filter P;
  match l with
  | [] => mret None
  | [x] => mret (Some x)
  | _ => ServerError
  end.

(** Modelled from the spec: users/models.py is absent; a profile
    belongs to exactly one user and a user has at most one profile of a
    type, so an insertion without an owner or for a user who already
    has a profile violates a constraint of the table. *)
Definition create (now : Z) (kwargs : gmap string pyval) : M A :=
  l ← gets rows;
  match init (next_pk l) now kwargs with
  | None => ServerError
  | Some x =>
      if bool_decide (Exists (λ y, User.id (owner y) = User.id (owner x)) l)
      then ServerError
      else
        _ ← log (DbInsert table (pk x));
        _ ← modify (set_rows (l ++ [x]));
        mret x
  end.

(** [instance.save()]: the row with the primary key of the instance is
    replaced by the instance, or the instance inserted when there is no
    such row. *)
Definition save (x : A) : M unit :=
  l ← gets rows;
  if bool_decide (Exists (λ y, pk y = pk x) l)
  then
    _ ← log (DbUpdate table (pk x));
    modify (set_rows
      ((λ y, if bool_decide (pk y = pk x) then x else y) <$> l))
  else
    _ ← log (DbInsert table (pk x));
    modify (set_rows (l ++ [x])).
End manager.
End Manager.

(** ** rest_framework.serializers.ModelSerializer *)

(** Modelled from the spec: users/models.py is absent; the kind of a
    serializer field follows the type the data model of the spec gives the
    attribute. *)
Inductive FieldKind :=
| CharField
| BooleanField
| IntegerField
| DecimalField            (* nullable *)
| ChoiceField (choices : list string)
| NestedSerializer.

(** Modelled from the spec: what a field makes of a payload value depends
    on options that users/models.py would give (lengths, blanks, digits)
    and on the framework, which coerces values of other types (the text
    'true' for a boolean, a number for text) and trims text.
    [field_value k v] is the validated value of [v] for a field of kind
    [k], none when the field rejects it. *)
Class FieldOptions := {
  field_value : FieldKind → pyval → option pyval;
}.

(** [Field.run_validation].  Whatever the options, a boolean is a valid
    boolean and a choice of the field is a valid choice, as they are. *)
Definition run_validation {options : FieldOptions} (k : FieldKind)
    (v : pyval) : option pyval :=
  match k, v with
  | BooleanField, VBool b => Some (VBool b)
  | ChoiceField cs, VStr s =>
      if bool_decide (s ∈ cs) then Some (VStr s) else field_value k v
  | _, _ => field_value k v
  end.

(** What a ModelSerializer subclass declares: Meta.fields,
    Meta.read_only_fields, the fields declared read-only in the class body,
    the kind of each model field and the representation of an instance. *)
Class ModelSerializer (A : Type) := {
  fields : list string;
  read_only_fields : list string;
  declared_read_only : list string;
  field_kind : string → FieldKind;
  to_representation : A → View;
}.

Section serializer.
Context `{Model A} `{!ModelSerializer A} {options : FieldOptions}.

(** Modelled from the spec: users/models.py is absent and with it the
    fields a model makes mandatory; they are the parameter [required]. *)
Variable required : list string.

(** The fields a payload can set. *)
Definition writable_fields : list string :=
  base.filter (λ f, (f ∉ read_only_fields) ∧ (f ∉ declared_read_only))
    fields.

(** [to_internal_value]: every writable field present in the payload is
    validated; a key that names no writable field is ignored; a
    mandatory field may be missing only from a partial update. *)
Fixpoint to_internal_value (partial : bool) (fs : list string)
    (payload : gmap string pyval) : option (gmap string pyval) :=
  match fs with
  | [] => Some ∅
  | f :: fs' =>
      rest ← to_internal_value partial fs' payload;
      (match payload !! f with
       | None =>
           if negb partial && bool_decide (f ∈ required)
           then None else Some rest
       | Some v =>
           v' ← run_validation (field_kind f) v; Some (<[f := v']> rest)
       end)
  end.

(** [is_valid(raise_exception=True)] followed by [validated_data]. *)
Definition is_valid (partial : bool) (payload : gmap string pyval)
  : M (gmap string pyval) :=
  match to_internal_value partial writable_fields payload with
  | Some d => mret d
  | None => ValidationError
  end.

(** [serializer.save] with keyword arguments and no instance:
    [ModelSerializer.create] on the validated data overridden by the
    keyword arguments. *)
Definition save_new (now : Z) (validated_data kwargs : gmap string pyval)
  : M A :=
  Manager.create now (kwargs ∪ validated_data).

(** The loop of [ModelSerializer.update]:
    [for attr, value in validated_data.items(): setattr(instance, attr, value)]. *)
Definition assign (validated_data : gmap string pyval) (instance : A) : A :=
  map_fold setattr instance validated_data.
End serializer.

(** UserSerializer(user).data *)
Definition UserSerializer_data (u : User.t) : UserView :=
  {| uv_id := User.id u; uv_email := User.email u;
     uv_first_name := User.first_name u; uv_last_name := User.last_name u;
     uv_phone_number := User.phone_number u; uv_user_type := User.user_type u;
     uv_date_joined := User.date_joined u |}.

(** ** The two models *)

Definition set_passengers (l : list Passenger.t) (w : World) : World :=
  {| passengers := l; riders := riders w; cache := cache w; trace := trace w |}.
Definition set_riders (l : list Rider.t) (w : World) : World :=
  {| passengers := passengers w; riders := l; cache := cache w;
     trace := trace w |}.

(** [setattr(instance, name, value)] on a passenger.  A value of another
    type than the attribute's, which validation does not let through,
    leaves the instance as it is. *)
Definition Passenger_setattr (f : string) (v : pyval) (p : Passenger.t)
  : Passenger.t :=
  match v with
  | VStr s =>
      if bool_decide (f = "passenger_id") then Passenger.set_passenger_id s p
      else if bool_decide (f = "preferred_payment_method")
      then Passenger.set_preferred_payment_method s p
      else if bool_decide (f = "home_address")
      then Passenger.set_home_address s p
      else if bool_decide (f = "profile_picture")
      then Passenger.set_profile_picture s p
      else if bool_decide (f = "preferred_language")
      then Passenger.set_preferred_language s p
      else if bool_decide (f = "emergency_contact")
      then Passenger.set_emergency_contact s p
      else p
  | VBool b =>
      if bool_decide (f = "is_verified") then Passenger.set_is_verified b p
      else p
  | VInt z =>
      if bool_decide (f = "id") then Passenger.set_id z p
      else if bool_decide (f = "created_at") then Passenger.set_created_at z p
      else if bool_decide (f = "updated_at") then Passenger.set_updated_at z p
      else p
  | VUser u =>
      if bool_decide (f = "user") then Passenger.set_user u p else p
  | _ => p
  end.

Definition status_of_string (s : string) : option VerificationStatus :=
  if bool_decide (s = "pending") then Some pending
  else if bool_decide (s = "approved") then Some approved
  else if bool_decide (s = "rejected") then Some rejected
  else None.

(** [setattr(instance, name, value)] on a rider; as for a passenger. *)
Definition Rider_setattr (f : string) (v : pyval) (r : Rider.t) : Rider.t :=
  match v with
  | VStr s =>
      if bool_decide (f = "profile_picture") then Rider.set_profile_picture s r
      else if bool_decide (f = "license_number")
      then Rider.set_license_number s r
      else if bool_decide (f = "license_picture")
      then Rider.set_license_picture s r
      else if bool_decide (f = "id_number_picture")
      then Rider.set_id_number_picture s r
      else if bool_decide (f = "verification_notes")
      then Rider.set_verification_notes s r
      else if bool_decide (f = "verification_status")
      then match status_of_string s with
           | Some st => Rider.set_verification_status st r
           | None => r
           end
      else r
  | VBool b =>
      if bool_decide (f = "is_available") then Rider.set_is_available b r
      else r
  | VDec d =>
      if bool_decide (f = "current_latitude")
      then Rider.set_current_latitude (Some d) r
      else if bool_decide (f = "current_longitude")
      then Rider.set_current_longitude (Some d) r
      else if bool_decide (f = "average_rating")
      then Rider.set_average_rating d r
      else if bool_decide (f = "total_earnings")
      then Rider.set_total_earnings d r
      else r
  | VNone =>
      if bool_decide (f = "current_latitude")
      then Rider.set_current_latitude None r
      else if bool_decide (f = "current_longitude")
      then Rider.set_current_longitude None r
      else r
  | VInt z =>
      if bool_decide (f = "id") then Rider.set_id z r
      else if bool_decide (f = "total_rides") then Rider.set_total_rides z r
      else if bool_decide (f = "created_at") then Rider.set_created_at z r
      else if bool_decide (f = "updated_at") then Rider.set_updated_at z r
      else r
  | VUser u =>
      if bool_decide (f = "user") then Rider.set_user u r else r
  end.

(** Modelled from the spec: users/models.py is absent and the spec gives no
    default of a field; a field the keyword arguments leave out is blank
    (empty text, false, pending, null, zero), and both timestamps are the
    instant of the insertion. *)
Definition Passenger_init (pk0 now : Z) (kwargs : gmap string pyval)
  : option Passenger.t :=
  match kwargs !! "user" with
  | Some (VUser u) =>
      Some (map_fold Passenger_setattr
              (Passenger.mk pk0 u "" "" "" "" "" "" false now now) kwargs)
  | _ => None
  end.

(** Modelled from the spec: as [Passenger_init]. *)
Definition Rider_init (pk0 now : Z) (kwargs : gmap string pyval)
  : option Rider.t :=
  match kwargs !! "user" with
  | Some (VUser u) =>
      Some (map_fold Rider_setattr
              (Rider.mk pk0 u "" "" "" "" pending "" false None None 0 0 0
                 now now) kwargs)
  | _ => None
  end.

#[global] Instance Passenger_model : Model Passenger.t := {|
  table := TPassenger;
  rows := passengers;
  set_rows := set_passengers;
  pk := Passenger.id;
  owner := Passenger.user;
  setattr := Passenger_setattr;
  init := Passenger_init;
|}.

#[global] Instance Rider_model : Model Rider.t := {|
  table := TRider;
  rows := riders;
  set_rows := set_riders;
  pk := Rider.id;
  owner := Rider.user;
  setattr := Rider_setattr;
  init := Rider_init;
|}.

(** ** serializers.py *)

Definition PassengerSerializer_data (p : Passenger.t) : PassengerView :=
  {| pv_id := Passenger.id p;
     pv_user := UserSerializer_data (Passenger.user p);
     pv_passenger_id := Passenger.passenger_id p;
     pv_preferred_payment_method := Passenger.preferred_payment_method p;
     pv_home_address := Passenger.home_address p;
     pv_profile_picture := Passenger.profile_picture p;
     pv_preferred_language := Passenger.preferred_language p;
     pv_emergency_contact := Passenger.emergency_contact p;
     pv_is_verified := Passenger.is_verified p;
     pv_created_at := Passenger.created_at p;
     pv_updated_at := Passenger.updated_at p |}.

Definition RiderSerializer_data (r : Rider.t) : RiderView :=
  {| rv_id := Rider.id r;
     rv_user := UserSerializer_data (Rider.user r);
     rv_profile_picture := Rider.profile_picture r;
     rv_license_number := Rider.license_number r;
     rv_license_picture := Rider.license_picture r;
     rv_id_number_picture := Rider.id_number_picture r;
     rv_verification_status := Rider.verification_status r;
     rv_verification_notes := Rider.verification_notes r;
     rv_is_available := Rider.is_available r;
     rv_current_latitude := Rider.current_latitude r;
     rv_current_longitude := Rider.current_longitude r;
     rv_average_rating := Rider.average_rating r;
     rv_total_rides := Rider.total_rides r;
     rv_total_earnings := Rider.total_earnings r;
     rv_created_at := Rider.created_at r;
     rv_updated_at := Rider.updated_at r |}.

#[global] Instance PassengerSerializer : ModelSerializer Passenger.t := {|
  fields :=
    ["id"; "user"; "passenger_id"; "preferred_payment_method";
     "home_address"; "profile_picture"; "preferred_language";
     "emergency_contact"; "is_verified"; "created_at"; "updated_at"];
  read_only_fields := ["id"; "created_at"; "updated_at"];
  declared_read_only := ["user"];
  field_kind := λ f,
    if bool_decide (f = "is_verified") then BooleanField
    else if bool_decide (f = "user") then NestedSerializer
    else if bool_decide (f ∈ ["id"; "created_at"; "updated_at"])
    then IntegerField
    else CharField;
  to_representation := λ p, PassengerData (PassengerSerializer_data p);
|}.

#[global] Instance RiderSerializer : ModelSerializer Rider.t := {|
  fields :=
    ["id"; "user"; "profile_picture"; "license_number"; "license_picture";
     "id_number_picture"; "verification_status"; "verification_notes";
     "is_available"; "current_latitude"; "current_longitude";
     "average_rating"; "total_rides"; "total_earnings"; "created_at";
     "updated_at"];
  read_only_fields :=
    ["id"; "average_rating"; "total_rides"; "total_earnings"; "created_at";
     "updated_at"];
  declared_read_only := ["user"];
  field_kind := λ f,
    if bool_decide (f = "is_available") then BooleanField
    else if bool_decide (f = "current_latitude") then DecimalField
    else if bool_decide (f = "current_longitude") then DecimalField
    else if bool_decide (f = "verification_status")
    then ChoiceField ["pending"; "approved"; "rejected"]
    else if bool_decide (f = "user") then NestedSerializer
    else if bool_decide (f ∈ ["average_rating"; "total_earnings"])
    then DecimalField
    else if bool_decide (f ∈ ["id"; "total_rides"; "created_at"; "updated_at"])
    then IntegerField
    else CharField;
  to_representation := λ r, RiderData (RiderSerializer_data r);
|}.

(** ** rest_framework.viewsets.ModelViewSet

    The actions the two view sets inherit, over the methods they override
    ([get_queryset], [perform_create]).  No pagination, filter backend or
    object-level permission is configured in the source. *)
Module ModelViewSet.
Section actions.
Context `{Model A} `{!ModelSerializer A} {options : FieldOptions}.
Variable required : list string.
Variable get_queryset : Request → M (list A).
Variable perform_create : Z → Request → gmap string pyval → M A.

(** [get_object]: [get_object_or_404] on the view's queryset. *)
Definition get_object (request : Request) (pk0 : Z) : M A :=
  queryset ← get_queryset request;
  match base.filter (λ x, pk x = pk0) queryset with
  | [] => Http404
  | [x] => mret x
  | _ => ServerError
  end.

Definition retrieve (request : Request) (pk0 : Z) : M Response :=
  instance ← get_object request pk0;
  mret (Response_ok (BObject (to_representation instance))).

Definition create (now : Z) (request : Request) : M Response :=
  validated_data ← is_valid required false (request_data request);
  instance ← perform_create now request validated_data;
  mret {| data := BObject (to_representation instance);
          status := HTTP_201_CREATED |}.

(** [perform_update]: [serializer.save()] on an instance, that is
    [ModelSerializer.update]. *)
Definition perform_update (instance : A)
    (validated_data : gmap string pyval) : M A :=
  let instance := assign validated_data instance in
  _ ← Manager.save instance;
  mret instance.

Definition update (partial : bool) (request : Request) (pk0 : Z)
  : M Response :=
  instance ← get_object request pk0;
  validated_data ← is_valid required partial (request_data request);
  instance ← perform_update instance validated_data;
  mret (Response_ok (BObject (to_representation instance))).

Definition partial_update : Request → Z → M Response := update true.

Definition list (request : Request) : M Response :=
  queryset ← get_queryset request;
  mret (Response_ok (BList (to_representation <$> queryset))).
End actions.
End ModelViewSet.

(** ** users/views.py *)

Module PassengerViewSet.
(** Regular users can only see their own passenger profile. *)
Definition get_queryset (request : Request) : M (list Passenger.t) :=
  if User.is_staff (user request)
  then Manager.all
  else Manager.filter
         (λ p, User.id (Passenger.user p) = User.id (user request)).

(** Associate the passenger with the current user. *)
Definition perform_create (now : Z) (request : Request)
    (validated_data : gmap string pyval) : M Passenger.t :=
  save_new now validated_data {[ "user" := VUser (user request) ]}.

(** Get the current user's passenger profile. *)
Definition my_profile (request : Request) : M Response :=
  found ← Manager.get
    (λ p, User.id (Passenger.user p) = User.id (user request));
  match found with
  | Some passenger =>
      mret (Response_ok (BObject (to_representation passenger)))
  | None =>
      mret {| data := BError "Passenger profile not found";
              status := HTTP_404_NOT_FOUND |}
  end.

Definition retrieve := ModelViewSet.retrieve get_queryset.
Definition create {options : FieldOptions} (required : list string) :=
  ModelViewSet.create required perform_create.
Definition update {options : FieldOptions} (required : list string) :=
  ModelViewSet.update required get_queryset.
Definition partial_update {options : FieldOptions}
    (required : list string) :=
  ModelViewSet.partial_update required get_queryset.
Definition list := ModelViewSet.list get_queryset.
End PassengerViewSet.

(** ** The coordinate columns of a rider

    Modelled from the spec: users/models.py is absent and with it the
    declaration of the two coordinate columns (their digits and decimal
    places), so what a column makes of a value assigned to the attribute
    is a parameter.  [column_value v] is the decimal that [save()] writes
    for an assigned value [v], none when the conversion raises and the row
    is not written (DecimalField.get_db_prep_save); [shown_value v] is the
    decimal that [serializer.data] shows for it, none when that raises
    (the serializer field's to_representation, which reads the attribute
    of the instance in memory, not the row). *)
Class DecimalColumn := {
  column_value : pyval → option Decimal;
  shown_value : pyval → option Decimal;
}.

(** A Rider instance in memory: the row as loaded and, for each
    coordinate, the value assigned to the attribute since, if any. *)
Record RiderInstance := {
  instance_row : Rider.t;
  assigned_latitude : option pyval;
  assigned_longitude : option pyval;
}.

Definition in_memory (r : Rider.t) : RiderInstance :=
  {| instance_row := r; assigned_latitude := None;
     assigned_longitude := None |}.

(** [rider.current_latitude = value] and [rider.current_longitude = value] *)
Definition assign_latitude (v : pyval) (i : RiderInstance) : RiderInstance :=
  {| instance_row := instance_row i; assigned_latitude := Some v;
     assigned_longitude := assigned_longitude i |}.
Definition assign_longitude (v : pyval) (i : RiderInstance) : RiderInstance :=
  {| instance_row := instance_row i;
     assigned_latitude := assigned_latitude i;
     assigned_longitude := Some v |}.

(** The coordinate that an attribute stands for under a conversion: the
    loaded one when nothing was assigned, null for None, and none at all
    when the conversion raises. *)
Definition coordinate (convert : pyval → option Decimal)
    (assigned : option pyval) (loaded : option Decimal)
  : option (option Decimal) :=
  match assigned with
  | None => Some loaded
  | Some VNone => Some None
  | Some v => Some <$> convert v
  end.

(** The row that the instance stands for under a conversion. *)
Definition instance_under (convert : pyval → option Decimal)
    (i : RiderInstance) : option Rider.t :=
  match coordinate convert (assigned_latitude i)
          (Rider.current_latitude (instance_row i)),
        coordinate convert (assigned_longitude i)
          (Rider.current_longitude (instance_row i)) with
  | Some x, Some y =>
      Some (Rider.set_current_longitude y
              (Rider.set_current_latitude x (instance_row i)))
  | _, _ => None
  end.

(** [rider.save()]: the attributes are converted, then the row is
    written; a conversion that raises leaves the row unwritten. *)
Definition RiderInstance_save {column : DecimalColumn} (i : RiderInstance)
  : M unit :=
  match instance_under column_value i with
  | Some r => Manager.save r
  | None => ServerError
  end.

(** [self.get_serializer(rider).data] on the instance in memory. *)
Definition RiderInstance_data {column : DecimalColumn} (i : RiderInstance)
  : M View :=
  match instance_under shown_value i with
  | Some r => mret (to_representation r)
  | None => ServerError
  end.

Module RiderViewSet.
(** Regular users can only see their own rider profile.  Staff can see
    all riders. *)
Definition get_queryset (request : Request) : M (list Rider.t) :=
  if User.is_staff (user request)
  then Manager.all
  else Manager.filter (λ r, User.id (Rider.user r) = User.id (user request)).

(** Associate the rider with the current user. *)
Definition perform_create (now : Z) (request : Request)
    (validated_data : gmap string pyval) : M Rider.t :=
  save_new now validated_data {[ "user" := VUser (user request) ]}.

(** Get the current user's rider profile. *)
Definition my_profile (request : Request) : M Response :=
  found ← Manager.get (λ r, User.id (Rider.user r) = User.id (user request));
  match found with
  | Some rider => mret (Response_ok (BObject (to_representation rider)))
  | None =>
      mret {| data := BError "Rider profile not found";
              status := HTTP_404_NOT_FOUND |}
  end.

(** Get all available riders for passengers to see.  Cached for five
    minutes. *)
Definition available_riders (now : Z) (request : Request) : M Response :=
  let cache_key := "available_riders" in
  cached_data ← Cache.get now cache_key;
  match cached_data with
  | Some cached => mret (Response_ok cached)
  | None =>
      available_riders ← Manager.filter
        (λ r, Rider.is_available r = true
              ∧ Rider.verification_status r = approved);
      let serializer_data := BList (to_representation <$> available_riders) in
      _ ← Cache.set now cache_key serializer_data 300;
      mret (Response_ok serializer_data)
  end.

(** Update rider's current location. *)
Definition update_location {column : DecimalColumn} (request : Request)
    (pk0 : Z) : M Response :=
  rider ← ModelViewSet.get_object get_queryset request pk0;
  if negb (User.eqb (Rider.user rider) (user request))
     && negb (User.is_staff (user request))
  then mret {| data := BError "Permission denied";
               status := HTTP_403_FORBIDDEN |}
  else
    let latitude := dict_get (request_data request) "current_latitude" in
    let longitude := dict_get (request_data request) "current_longitude" in
    let rider := in_memory rider in
    let rider := if is_not_None latitude
                 then assign_latitude latitude rider else rider in
    let rider := if is_not_None longitude
                 then assign_longitude longitude rider else rider in
    _ ← RiderInstance_save rider;
    (* Clear available riders cache when location is updated *)
    _ ← Cache.delete "available_riders";
    serializer_data ← RiderInstance_data rider;
    mret (Response_ok (BObject serializer_data)).

Definition retrieve := ModelViewSet.retrieve get_queryset.
Definition create {options : FieldOptions} (required : list string) :=
  ModelViewSet.create required perform_create.
Definition update {options : FieldOptions} (required : list string) :=
  ModelViewSet.update required get_queryset.
Definition partial_update {options : FieldOptions}
    (required : list string) :=
  ModelViewSet.partial_update required get_queryset.
Definition list := ModelViewSet.list get_queryset.
End RiderViewSet.

(** ** Vocabulary of the properties *)

(** The filter of [available_riders]. *)
Definition available_and_approved (r : Rider.t) : Prop :=
  Rider.is_available r = true ∧ Rider.verification_status r = approved.

(** The serialization of the riders of the store that are available and
    approved. *)
Definition serialized_available (w : World) : Body :=
  BList (to_representation <$>
           filter (λ r, Rider.is_available r = true
                        ∧ Rider.verification_status r = approved) (riders w)).

(** The access policy in the words of the spec: staff may read every
    profile, any other requester the profiles whose owner they are. *)
Definition canAccess (requester target_owner : User.t) : Prop :=
  User.is_staff requester = true ∨ User.id target_owner = User.id requester.

#[global] Instance canAccess_dec u v : Decision (canAccess u v).
Proof. unfold canAccess. apply _. Defined.

(** The world with further events at the end of its trace. *)
Definition logged (es : list Event) (w : World) : World :=
  {| passengers := passengers w; riders := riders w; cache := cache w;
     trace := trace w ++ es |}.

(** The events a run from [w] to [w'] added to the trace. *)
Definition events_since (w w' : World) : list Event :=
  drop (length (trace w)) (trace w').

(** The number of recomputations of the available riders (queries of the
    Rider table) among some events. *)
Definition recomputations (es : list Event) : nat :=
  length (filter (λ e, e = DbSelect TRider) es).

(** Two rows that differ at most in the latitude. *)
Definition unchanged_but_latitude (r r' : Rider.t) : Prop :=
  Rider.id r' = Rider.id r ∧ Rider.user r' = Rider.user r
  ∧ Rider.profile_picture r' = Rider.profile_picture r
  ∧ Rider.license_number r' = Rider.license_number r
  ∧ Rider.license_picture r' = Rider.license_picture r
  ∧ Rider.id_number_picture r' = Rider.id_number_picture r
  ∧ Rider.verification_status r' = Rider.verification_status r
  ∧ Rider.verification_notes r' = Rider.verification_notes r
  ∧ Rider.is_available r' = Rider.is_available r
  ∧ Rider.current_longitude r' = Rider.current_longitude r
  ∧ Rider.average_rating r' = Rider.average_rating r
  ∧ Rider.total_rides r' = Rider.total_rides r
  ∧ Rider.total_earnings r' = Rider.total_earnings r
  ∧ Rider.created_at r' = Rider.created_at r
  ∧ Rider.updated_at r' = Rider.updated_at r.

(** Two rows that differ at most in the longitude. *)
Definition unchanged_but_longitude (r r' : Rider.t) : Prop :=
  Rider.id r' = Rider.id r ∧ Rider.user r' = Rider.user r
  ∧ Rider.profile_picture r' = Rider.profile_picture r
  ∧ Rider.license_number r' = Rider.license_number r
  ∧ Rider.license_picture r' = Rider.license_picture r
  ∧ Rider.id_number_picture r' = Rider.id_number_picture r
  ∧ Rider.verification_status r' = Rider.verification_status r
  ∧ Rider.verification_notes r' = Rider.verification_notes r
  ∧ Rider.is_available r' = Rider.is_available r
  ∧ Rider.current_latitude r' = Rider.current_latitude r
  ∧ Rider.average_rating r' = Rider.average_rating r
  ∧ Rider.total_rides r' = Rider.total_rides r
  ∧ Rider.total_earnings r' = Rider.total_earnings r
  ∧ Rider.created_at r' = Rider.created_at r
  ∧ Rider.updated_at r' = Rider.updated_at r.

(** The table with the row of key [pk0] replaced. *)
Definition with_row (pk0 : Z) (r' : Rider.t) (l : list Rider.t)
  : list Rider.t :=
  (λ y, if bool_decide (Rider.id y = pk0) then r' else y) <$> l.

(** The coordinate that a value of the payload leaves in an attribute
    under a conversion: the loaded one when the value is None (the key is
    absent or null), else the converted one, none when the conversion
    raises. *)
Definition supplied (convert : pyval → option Decimal) (v : pyval)
    (loaded : option Decimal) : option (option Decimal) :=
  if is_not_None v then Some <$> convert v else Some loaded.

(** The instance that update_location holds once the coordinates of the
    payload are assigned to the rider it loaded. *)
Definition located (request : Request) (rider : Rider.t) : RiderInstance :=
  let latitude := dict_get (request_data request) "current_latitude" in
  let longitude := dict_get (request_data request) "current_longitude" in
  let i := in_memory rider in
  let i := if is_not_None latitude then assign_latitude latitude i else i in
  if is_not_None longitude then assign_longitude longitude i else i.

(** The answer of update_location once the row is written, by what the
    serializer makes of the instance. *)
Definition answer (shown : option Rider.t) : Response :=
  match shown with
  | Some r => Response_ok (BObject (to_representation r))
  | None => {| data := BServerError; status := HTTP_500_INTERNAL_SERVER_ERROR |}
  end.

(** The list of views in the body of a response. *)
Definition listed (resp : Response) : list View :=
  match data resp with BList l => l | _ => [] end.

(** The owner's id as a serialized view shows it. *)
Definition view_owner_id (v : View) : Z :=
  match v with
  | PassengerData x => uv_id (pv_user x)
  | RiderData x => uv_id (rv_user x)
  end.

(** ** Sample data: three users, two riders, one passenger *)
Module Sample.
(** Sample field options: text is taken as it is sent, a number as a
    number, an integer as its text where text is expected, and the texts
    'true' and 'false' as booleans. *)
Definition options : FieldOptions :=
  {| field_value := λ k v,
       match k, v with
       | CharField, VStr s => Some (VStr s)
       | CharField, VInt z => Some (VStr (pretty z))
       | BooleanField, VStr s =>
           if bool_decide (s = "true") then Some (VBool true)
           else if bool_decide (s = "false") then Some (VBool false)
           else None
       | IntegerField, VInt z => Some (VInt z)
       | DecimalField, VNone => Some VNone
       | DecimalField, VDec d => Some (VDec d)
       | DecimalField, VInt z => Some (VDec (z * 1000000))
       | _, _ => None
       end |}.

Definition alice : User.t :=
  User.mk 1 "alice@example.com" "Alice" "Uwase" "0780000001" "rider" 1000
    false "pbkdf2-a".
Definition bob : User.t :=
  User.mk 2 "bob@example.com" "Bob" "Mugisha" "0780000002" "rider" 1001
    false "pbkdf2-b".
Definition carol : User.t :=
  User.mk 3 "carol@example.com" "Carol" "Keza" "0780000003" "passenger" 1002
    false "pbkdf2-c".
Definition staff : User.t :=
  User.mk 4 "ops@example.com" "Ops" "Desk" "0780000004" "admin" 1003
    true "pbkdf2-s".

(** Rider A: available and approved. *)
Definition rider_a : Rider.t :=
  Rider.mk 10 alice "a.png" "LIC-A" "la.png" "ida.png" approved "" true
    None None 0 0 0 2000 2000.
(** Rider B: approved but not available. *)
Definition rider_b : Rider.t :=
  Rider.mk 11 bob "b.png" "LIC-B" "lb.png" "idb.png" approved "" false
    None None 0 0 0 2001 2001.
Definition passenger_c : Passenger.t :=
  Passenger.mk 20 carol "P-20" "cash" "KG 1 Ave" "c.png" "en" "0780000009"
    false 2002 2002.

Definition world : World :=
  {| passengers := [passenger_c]; riders := [rider_a; rider_b];
     cache := ∅; trace := [] |}.

Definition get (u : User.t) : Request :=
  {| user := u; request_data := ∅ |}.
Definition patch (u : User.t) (payload : gmap string pyval) : Request :=
  {| user := u; request_data := payload |}.

(** A sample coordinate column of six decimal places.  Numbers are taken
    as they are, a string when it is a plain decimal literal (a sign,
    digits, at most six of them after the point); a boolean is written as
    0 or 1 but has no representation. *)
Definition digit_of (a : ascii) : option Z :=
  let n := Z.of_N (N_of_ascii a) in
  if bool_decide (48 ≤ n ≤ 57) then Some (n - 48) else None.
Fixpoint read_digits (s : string) (value : Z) (count : nat)
  : Z * nat * string :=
  match s with
  | String a s' =>
      match digit_of a with
      | Some d => read_digits s' (10 * value + d) (S count)
      | None => (value, count, s)
      end
  | EmptyString => (value, count, s)
  end.
Definition plain_decimal (s : string) : option Decimal :=
  let '(sign, s) :=
    match s with
    | String a s' =>
        if bool_decide (a = "-"%char) then (-1, s')
        else if bool_decide (a = "+"%char) then (1, s') else (1, s)
    | EmptyString => (1, s)
    end in
  let '(whole, n, rest) := read_digits s 0 0 in
  match rest with
  | EmptyString =>
      if bool_decide (n = 0%nat) then None else Some (sign * whole * 1000000)
  | String a rest' =>
      if bool_decide (a = "."%char)
      then
        let '(fraction, m, rest'') := read_digits rest' 0 0 in
        match rest'' with
        | EmptyString =>
            if bool_decide (n + m = 0)%nat then None
            else if bool_decide (m ≤ 6)%nat
            then Some (sign * (whole * 1000000
                               + fraction * 10 ^ Z.of_nat (6 - m)))
            else None
        | String _ _ => None
        end
      else None
  end.
Definition column : DecimalColumn :=
  {| column_value := λ v,
       match v with
       | VDec d => Some d
       | VInt z => Some (z * 1000000)
       | VBool b => Some (if b then 1000000 else 0)
       | VStr s => plain_decimal s
       | VNone | VUser _ => None
       end;
     shown_value := λ v,
       match v with
       | VDec d => Some d
       | VInt z => Some (z * 1000000)
       | VStr s => plain_decimal s
       | VNone | VBool _ | VUser _ => None
       end |}.

(** A payload that names another user as the owner of the profile. *)
Definition intruding_payload : gmap string pyval :=
  {[ "owner" := VInt 2; "user" := VInt 2; "home_address" := VStr "KK 5 Rd" ]}.

(** The slot is filled at instant 3000 (it expires at 3300); then rider B
    becomes available through the generic partial update. *)
Definition cached_world : World :=
  snd (run (RiderViewSet.available_riders 3000 (get carol)) world).
Definition stale_world : World :=
  snd (run (RiderViewSet.partial_update (options:=options) []
              (patch bob {[ "is_available" := VBool true ]}) 11)
         cached_world).
End Sample.

(** ** Vocabulary of the further properties *)

(** Two rows that differ at most in the two coordinates. *)
Definition coordinates_apart (r r' : Rider.t) : Prop :=
  ∃ x y, r' = Rider.set_current_longitude y (Rider.set_current_latitude x r).

(** Two rows that agree on the key, the owner and the attributes that
    RiderSerializer declares read-only, the instant of the last save
    apart. *)
Definition read_only_same (r r' : Rider.t) : Prop :=
  Rider.id r' = Rider.id r ∧ Rider.user r' = Rider.user r
  ∧ Rider.average_rating r' = Rider.average_rating r
  ∧ Rider.total_rides r' = Rider.total_rides r
  ∧ Rider.total_earnings r' = Rider.total_earnings r
  ∧ Rider.created_at r' = Rider.created_at r.

(** The constraints of the two tables: distinct primary keys, and at most
    one profile of a type for a user. *)
Definition store_ok (w : World) : Prop :=
  NoDup (Rider.id <$> riders w)
  ∧ NoDup ((λ r, User.id (Rider.user r)) <$> riders w)
  ∧ NoDup (Passenger.id <$> passengers w)
  ∧ NoDup ((λ p, User.id (Passenger.user p)) <$> passengers w).

(** Two passenger rows that agree on the key, the owner and the
    attributes that PassengerSerializer declares read-only, the instant of
    the last save apart. *)
Definition Passenger_read_only_same (p p' : Passenger.t) : Prop :=
  Passenger.id p' = Passenger.id p ∧ Passenger.user p' = Passenger.user p
  ∧ Passenger.created_at p' = Passenger.created_at p.

(** A user with another password, and a profile with another owner row. *)
Definition User_with_password (pw : string) (u : User.t) : User.t :=
  User.mk (User.id u) (User.email u) (User.first_name u) (User.last_name u)
    (User.phone_number u) (User.user_type u) (User.date_joined u)
    (User.is_staff u) pw.
Definition Rider_with_owner (u : User.t) (r : Rider.t) : Rider.t :=
  Rider.mk (Rider.id r) u (Rider.profile_picture r) (Rider.license_number r)
    (Rider.license_picture r) (Rider.id_number_picture r)
    (Rider.verification_status r) (Rider.verification_notes r)
    (Rider.is_available r) (Rider.current_latitude r)
    (Rider.current_longitude r) (Rider.average_rating r)
    (Rider.total_rides r) (Rider.total_earnings r) (Rider.created_at r)
    (Rider.updated_at r).
Definition Passenger_with_owner (u : User.t) (p : Passenger.t)
  : Passenger.t :=
  Passenger.mk (Passenger.id p) u (Passenger.passenger_id p)
    (Passenger.preferred_payment_method p) (Passenger.home_address p)
    (Passenger.profile_picture p) (Passenger.preferred_language p)
    (Passenger.emergency_contact p) (Passenger.is_verified p)
    (Passenger.created_at p) (Passenger.updated_at p).

(** The world in which every stored owner has the password [pw] gives
    them. *)
Definition with_passwords (pw : User.t → string) (w : World) : World :=
  {| passengers :=
       (λ p, Passenger_with_owner
               (User_with_password (pw (Passenger.user p)) (Passenger.user p))
               p) <$> passengers w;
     riders :=
       (λ r, Rider_with_owner
               (User_with_password (pw (Rider.user r)) (Rider.user r)) r)
         <$> riders w;
     cache := cache w;
     trace := trace w |}.

(** ** Registration (UserViewSet.create, UserRegistrationSerializer) *)

(** A number as Python compares it: booleans and integers equal the
    decimals of the same value. *)
Definition numeric (v : pyval) : option Z :=
  match v with
  | VBool b => Some (if b then 1000000 else 0)
  | VInt z => Some (z * 1000000)
  | VDec d => Some d
  | _ => None
  end.

(** Python's [==] on payload values. *)
Definition py_eq (a b : pyval) : bool :=
  match numeric a, numeric b with
  | Some x, Some y => bool_decide (x = y)
  | None, None =>
      match a, b with
      | VNone, VNone => true
      | VStr s, VStr t => bool_decide (s = t)
      | VUser u, VUser v => User.eqb u v
      | _, _ => false
      end
  | _, _ => false
  end.

(** What a step of the registration yields: a value, a raised
    serializers.ValidationError with its messages by field, or an
    exception that nothing catches. *)
Inductive Outcome (A : Type) :=
| Returned (a : A)
| Invalid (errors : gmap string string)
| Uncaught.
Arguments Returned {A} a.
Arguments Invalid {A} errors.
Arguments Uncaught {A}.

Inductive RegistrationBody :=
| Registered (user_view : UserView) (refresh access : string)
    (message : string)
| FieldErrors (errors : gmap string string)
| Crash.

Record RegistrationResponse :=
  { registration_data : RegistrationBody; registration_status : Z }.

Module UserRegistrationSerializer.
(** Meta.fields *)
Definition fields : list string :=
  ["email"; "password"; "password2"; "first_name"; "last_name";
   "phone_number"; "user_type"].

(** [validate(attrs)]; a missing key raises KeyError. *)
Definition validate (attrs : gmap string pyval)
  : Outcome (gmap string pyval) :=
  match attrs !! "password" with
  | None => Uncaught
  | Some password =>
      match attrs !! "password2" with
      | None => Uncaught
      | Some password2 =>
          if negb (py_eq password password2)
          then Invalid {[ "password" := "Password fields didn't match." ]}
          else Returned attrs
      end
  end.

Section create.
(** The identity store and [User.objects.create_user], which
    users/models.py and Django define: the user it returns, or none when
    it raises, and the store it leaves. *)
Context {S : Type}.
Variable create_user : gmap string pyval → S → option User.t * S.

(** [create(validated_data)]: [validated_data.pop('password2')], then
    [create_user] on what is left. *)
Definition create (validated_data : gmap string pyval) (s : S)
  : option User.t * S :=
  match validated_data !! "password2" with
  | None => (None, s)
  | Some _ => create_user (delete "password2" validated_data) s
  end.
End create.
End UserRegistrationSerializer.

Module UserViewSet.
Section create.
Context {S : Type}.
(** The validation of the single fields, which the framework derives from
    the serializer's declarations and the absent model (required fields,
    validate_password, the unique email): the attributes, or the messages
    by field. *)
Variable to_internal_value :
  gmap string pyval → gmap string string + gmap string pyval.
Variable create_user : gmap string pyval → S → option User.t * S.
(** [RefreshToken.for_user(user)]: the refresh and the access token as
    strings, and the store it leaves. *)
Variable for_user : User.t → S → (string * string) * S.

(** [is_valid(raise_exception=True)]: the fields, then [validate]. *)
Definition is_valid (payload : gmap string pyval)
  : Outcome (gmap string pyval) :=
  match to_internal_value payload with
  | inl errors => Invalid errors
  | inr attrs => UserRegistrationSerializer.validate attrs
  end.

Definition create (payload : gmap string pyval) (s : S)
  : RegistrationResponse * S :=
  match is_valid payload with
  | Invalid errors =>
      ({| registration_data := FieldErrors errors;
          registration_status := HTTP_400_BAD_REQUEST |}, s)
  | Uncaught =>
      ({| registration_data := Crash;
          registration_status := HTTP_500_INTERNAL_SERVER_ERROR |}, s)
  | Returned validated_data =>
      match UserRegistrationSerializer.create create_user validated_data s
      with
      | (None, s') =>
          ({| registration_data := Crash;
              registration_status := HTTP_500_INTERNAL_SERVER_ERROR |}, s')
      | (Some user, s') =>
          let '(refresh, access, s'') := for_user user s' in
          ({| registration_data :=
                Registered (UserSerializer_data user) refresh access
                  "User registered successfully";
              registration_status := HTTP_201_CREATED |}, s'')
      end
  end.
End create.
End UserViewSet.

(** Sample collaborators of a registration: the email is mandatory, the
    identity store is a list of users, the tokens are fixed strings. *)
Module SampleRegistration.
Definition to_internal_value (payload : gmap string pyval)
  : gmap string string + gmap string pyval :=
  match payload !! "email" with
  | None => inl {[ "email" := "This field is required." ]}
  | Some _ => inr payload
  end.
Definition create_user (kwargs : gmap string pyval) (s : list User.t)
  : option User.t * list User.t :=
  match kwargs !! "email", kwargs !! "password" with
  | Some (VStr e), Some (VStr p) =>
      let u := User.mk (1 + Z.of_nat (length s)) e "" "" "" "passenger" 5000
                 false p in
      (Some u, s ++ [u])
  | _, _ => (None, s)
  end.
Definition for_user (u : User.t) (s : list User.t)
  : (string * string) * list User.t :=
  (("refresh-token", "access-token"), s).
Definition matching : gmap string pyval :=
  {[ "email" := VStr "dan@example.com"; "password" := VStr "s3cret-pass";
     "password2" := VStr "s3cret-pass" ]}.
Definition differing : gmap string pyval :=
  {[ "email" := VStr "dan@example.com"; "password" := VStr "s3cret-pass";
     "password2" := VStr "s3cret-pasS" ]}.
End SampleRegistration.

(** Reduction leaves the validation of a payload and the attribute
    assignments folded: they compare field names. *)
Arguments dict_get : simpl never.
Arguments writable_fields : simpl never.
Arguments to_internal_value : simpl never.
Arguments assign : simpl never.
Arguments Rider_setattr : simpl never.
Arguments Passenger_setattr : simpl never.
Arguments Rider_init : simpl never.
Arguments Passenger_init : simpl never.
Arguments instance_under : simpl never.
Arguments located : simpl never.

Ltac unfold_M :=
  cbv beta iota delta
    [run mbind M_bind mret M_ret raise gets modify log Http404
     ValidationError ServerError Cache.get Cache.set Cache.delete
     Cache.set_cache Manager.all Manager.filter Manager.get Manager.save
     Manager.create].

Ltac not_listed H :=
  repeat (apply elem_of_cons in H as [H|H]; [discriminate H|]);
  by apply elem_of_nil in H.

(** ** The available-riders cache *)

Lemma events_since_logged es w : events_since w (logged es w) = es.
Proof.
  unfold events_since, logged; cbn.
  by rewrite drop_app_length.
Qed.

(** What a call of [available_riders] does, by the state of the slot. *)
Lemma available_riders_run now request w :
  run (RiderViewSet.available_riders now request) w =
  match Cache.peek now "available_riders" (cache w) with
  | Some cached =>
      (Response_ok cached, logged [CacheGet "available_riders"] w)
  | None =>
      (Response_ok (serialized_available w),
       {| passengers := passengers w; riders := riders w;
          cache := <["available_riders" :=
                       {| entry_value := serialized_available w;
                          expires_at := now + 300 |}]> (cache w);
          trace := trace w ++ [CacheGet "available_riders"; DbSelect TRider;
                               CacheSet "available_riders" 300] |})
  end.
Proof.
  unfold RiderViewSet.available_riders. unfold_M. cbn.
  destruct (Cache.peek now "available_riders" (cache w)) as [cached|]; cbn.
  - reflexivity.
  - unfold serialized_available. by rewrite <- !app_assoc.
Qed.

(** C1: a call of available_riders returns the payload of the slot
    'available_riders' verbatim when the slot holds an unexpired entry;
    otherwise it returns the serialization of the riders that are
    available and approved and stores it in the slot with a time-to-live
    of 300 seconds. *)
Theorem available_riders_read_through now request w :
  (∀ cached,
     Cache.peek now "available_riders" (cache w) = Some cached →
     fst (run (RiderViewSet.available_riders now request) w)
     = Response_ok cached)
  ∧ (Cache.peek now "available_riders" (cache w) = None →
     fst (run (RiderViewSet.available_riders now request) w)
     = Response_ok (serialized_available w)
     ∧ cache (snd (run (RiderViewSet.available_riders now request) w))
         !! "available_riders"
       = Some {| entry_value := serialized_available w;
                 expires_at := now + 300 |}
     ∧ CacheSet "available_riders" 300
       ∈ events_since w
           (snd (run (RiderViewSet.available_riders now request) w))).
Proof.
  rewrite available_riders_run. split.
  - intros cached ->. reflexivity.
  - intros ->. cbn. split; [reflexivity|]. split.
    + apply lookup_insert_eq.
    + unfold events_since; cbn. rewrite drop_app_length. set_solver.
Qed.

Lemma available_riders_read_through_witness :
  fst (run (RiderViewSet.available_riders 3100 (Sample.get Sample.carol))
         (snd (run (RiderViewSet.available_riders 3000
                      (Sample.get Sample.bob)) Sample.world)))
  = Response_ok (BList [to_representation Sample.rider_a])
  ∧ fst (run (RiderViewSet.available_riders 3000 (Sample.get Sample.bob))
           Sample.world)
    = Response_ok (BList [to_representation Sample.rider_a]).
Proof.
  split.
  - apply (proj1 (available_riders_read_through 3100 (Sample.get Sample.carol)
                    (snd (run (RiderViewSet.available_riders 3000
                                 (Sample.get Sample.bob)) Sample.world)))).
    vm_compute. reflexivity.
  - apply (proj2 (available_riders_read_through 3000 (Sample.get Sample.bob)
                    Sample.world)).
    vm_compute. reflexivity.
Defined.

(** A successful update_location leaves the slot deleted. *)
Lemma update_location_ok_cache {column : DecimalColumn} request pk0 w :
  status (fst (run (RiderViewSet.update_location request pk0) w))
  = HTTP_200_OK →
  cache (snd (run (RiderViewSet.update_location request pk0) w))
  = delete "available_riders" (cache w).
Proof.
  unfold RiderViewSet.update_location, ModelViewSet.get_object,
    RiderViewSet.get_queryset, RiderInstance_save, RiderInstance_data.
  destruct (User.is_staff (user request)) eqn:Hs; unfold_M; cbn.
  - destruct (filter _ (riders w)) as [|x [|y l]]; cbn; try discriminate.
    rewrite andb_false_r.
    destruct (instance_under column_value _); cbn; try discriminate.
    destruct (instance_under shown_value _); cbn; try discriminate.
    all: case_bool_decide; cbn; done.
  - destruct (filter _ (filter _ (riders w))) as [|x [|y l]]; cbn;
      try discriminate.
    rewrite andb_true_r.
    destruct (negb _); cbn; try discriminate.
    destruct (instance_under column_value _); cbn; try discriminate.
    destruct (instance_under shown_value _); cbn; try discriminate.
    all: case_bool_decide; cbn; done.
Qed.

Lemma peek_deleted now key (c : gmap string CacheEntry) :
  Cache.peek now key (delete key c) = None.
Proof. unfold Cache.peek. by rewrite lookup_delete_eq. Qed.

(** C2: after a successful update_location the slot 'available_riders' is
    empty, and the next available_riders call, at whatever instant, is a
    miss: it queries the Rider table and returns the serialization of the
    riders then in the store. *)
Theorem update_location_invalidates {column : DecimalColumn} request pk0 w :
  status (fst (run (RiderViewSet.update_location request pk0) w))
  = HTTP_200_OK →
  let w' := snd (run (RiderViewSet.update_location request pk0) w) in
  cache w' !! "available_riders" = None
  ∧ ∀ now request',
      let next := run (RiderViewSet.available_riders now request') w' in
      fst next = Response_ok (serialized_available w')
      ∧ events_since w' (snd next)
        = [CacheGet "available_riders"; DbSelect TRider;
           CacheSet "available_riders" 300].
Proof.
  intros Hok w'. pose proof (update_location_ok_cache _ _ _ Hok) as Hc.
  fold w' in Hc. split.
  - rewrite Hc. apply lookup_delete_eq.
  - intros now request'. cbn zeta. rewrite available_riders_run.
    rewrite Hc, peek_deleted. cbn. split; [reflexivity|].
    unfold events_since; cbn. by rewrite drop_app_length.
Qed.

Lemma update_location_invalidates_witness :
  let moved :=
    snd (run (RiderViewSet.update_location (column:=Sample.column)
                (Sample.patch Sample.bob
                   {[ "current_latitude" := VDec (-1950000) ]}) 11)
           (snd (run (RiderViewSet.available_riders 3000
                        (Sample.get Sample.carol)) Sample.world))) in
  cache moved !! "available_riders" = None
  ∧ ∀ now request',
      let next := run (RiderViewSet.available_riders now request') moved in
      fst next = Response_ok (serialized_available moved)
      ∧ events_since moved (snd next)
        = [CacheGet "available_riders"; DbSelect TRider;
           CacheSet "available_riders" 300].
Proof.
  apply (update_location_invalidates (column:=Sample.column)
           (Sample.patch Sample.bob
              {[ "current_latitude" := VDec (-1950000) ]}) 11
           (snd (run (RiderViewSet.available_riders 3000
                        (Sample.get Sample.carol)) Sample.world))).
  vm_compute. reflexivity.
Defined.

(** ** Two calls in a row *)

Lemma peek_insert now key v e (c : gmap string CacheEntry) :
  Cache.peek now key (<[key := {| entry_value := v; expires_at := e |}]> c)
  = if bool_decide (now < e) then Some v else None.
Proof. unfold Cache.peek. by rewrite lookup_insert_eq. Qed.

Lemma events_since_app es w w' :
  trace w' = trace w ++ es → events_since w w' = es.
Proof. unfold events_since. intros ->. by rewrite drop_app_length. Qed.

(** Two calls of [available_riders] in a row, by the state of the slot at
    the two instants. *)
Lemma available_riders_twice t1 t2 request1 request2 w :
  t2 < t1 + 300 →
  let first := run (RiderViewSet.available_riders t1 request1) w in
  let second := run (RiderViewSet.available_riders t2 request2) (snd first) in
  match Cache.peek t1 "available_riders" (cache w),
        Cache.peek t2 "available_riders" (cache w) with
  | None, _ =>
      fst second = fst first
      ∧ events_since w (snd first)
        = [CacheGet "available_riders"; DbSelect TRider;
           CacheSet "available_riders" 300]
      ∧ events_since (snd first) (snd second) = [CacheGet "available_riders"]
  | Some cached, Some _ =>
      fst second = fst first
      ∧ events_since w (snd first) = [CacheGet "available_riders"]
      ∧ events_since (snd first) (snd second) = [CacheGet "available_riders"]
  | Some cached, None =>
      fst first = Response_ok cached
      ∧ fst second = Response_ok (serialized_available w)
      ∧ events_since w (snd first) = [CacheGet "available_riders"]
      ∧ events_since (snd first) (snd second)
        = [CacheGet "available_riders"; DbSelect TRider;
           CacheSet "available_riders" 300]
  end.
Proof.
  intros Ht first second. subst first second.
  rewrite (available_riders_run t1).
  destruct (Cache.peek t1 "available_riders" (cache w)) as [c1|] eqn:H1.
  - cbn [snd fst]. rewrite (available_riders_run t2). cbn [logged cache].
    destruct (Cache.peek t2 "available_riders" (cache w)) as [c2|] eqn:H2;
      cbn [snd fst].
    + assert (c2 = c1) as ->.
      { unfold Cache.peek in H1, H2.
        destruct (cache w !! "available_riders") as [e|]; [|done].
        repeat case_bool_decide; congruence. }
      split; [done|]. split; by apply events_since_app.
    + split; [done|]. split; [done|]. split; by apply events_since_app.
  - cbn [snd fst]. rewrite (available_riders_run t2). cbn [cache].
    rewrite peek_insert, bool_decide_true by lia. cbn [snd fst].
    split; [done|]. split; by apply events_since_app.
Qed.

Lemma available_riders_trace now request w :
  trace (snd (run (RiderViewSet.available_riders now request) w))
  = trace w ++ events_since w
                 (snd (run (RiderViewSet.available_riders now request) w)).
Proof.
  rewrite available_riders_run.
  destruct (Cache.peek now "available_riders" (cache w));
    unfold events_since; cbn; by rewrite drop_app_length.
Qed.

(** C8, as the claim states it, fails: the first call hits an entry that
    expires before the second call, the second call recomputes, and rider B has
    become available in between the caching and the two calls. *)
Lemma available_riders_twice_counterexample :
  let first :=
    run (RiderViewSet.available_riders 3299 (Sample.get Sample.carol))
      Sample.stale_world in
  let second :=
    run (RiderViewSet.available_riders 3301 (Sample.get Sample.carol))
      (snd first) in
  3299 ≤ 3301 < 3299 + 300
  ∧ events_since Sample.stale_world (snd second)
    = [CacheGet "available_riders"; CacheGet "available_riders";
       DbSelect TRider; CacheSet "available_riders" 300]
  ∧ fst first = Response_ok (BList [to_representation Sample.rider_a])
  ∧ fst second
    = Response_ok
        (BList [to_representation Sample.rider_a;
                to_representation (Rider.set_is_available true Sample.rider_b)])
  ∧ fst first ≠ fst second.
Proof.
  cbn zeta. split; [lia|]. split; [by vm_compute|].
  split; [by vm_compute|]. split; [by vm_compute|].
  vm_compute. discriminate.
Qed.

(** C8 (amended): of two available_riders calls less than 300 seconds
    apart, with nothing run in between, at most one queries the Rider
    table; when the first call is a miss, or the entry it finds is still
    unexpired at the second call, the second call is served from the slot
    and the two responses are identical. *)
Theorem available_riders_twice_within_ttl t1 t2 request1 request2 w :
  t2 < t1 + 300 →
  let first := run (RiderViewSet.available_riders t1 request1) w in
  let second := run (RiderViewSet.available_riders t2 request2) (snd first) in
  (recomputations (events_since w (snd second)) ≤ 1)%nat
  ∧ (Cache.peek t1 "available_riders" (cache w) = None
     ∨ is_Some (Cache.peek t2 "available_riders" (cache w)) →
     fst second = fst first
     ∧ recomputations (events_since (snd first) (snd second)) = 0%nat).
Proof.
  intros Ht first second.
  pose proof (available_riders_twice t1 t2 request1 request2 w Ht) as H.
  pose proof (available_riders_trace t1 request1 w) as E1.
  pose proof (available_riders_trace t2 request2 (snd first)) as E2.
  cbn zeta in H. fold first in H, E1. fold second in H, E2.
  assert (events_since w (snd second)
          = events_since w (snd first) ++ events_since (snd first) (snd second))
    as Hsplit.
  { apply events_since_app. rewrite E2. rewrite E1 at 1. by rewrite app_assoc. }
  rewrite Hsplit.
  destruct (Cache.peek t1 "available_riders" (cache w)) as [c1|];
    [destruct (Cache.peek t2 "available_riders" (cache w)) as [c2|]|].
  - destruct H as (-> & -> & ->). split; [vm_compute; lia|]. done.
  - destruct H as (_ & _ & -> & ->). split; [vm_compute; lia|].
    intros [?|[? ?]]; done.
  - destruct H as (-> & -> & ->). split; [vm_compute; lia|]. done.
Qed.

Lemma available_riders_twice_within_ttl_witness :
  let first :=
    run (RiderViewSet.available_riders 3000 (Sample.get Sample.carol))
      Sample.world in
  let second :=
    run (RiderViewSet.available_riders 3299 (Sample.get Sample.bob))
      (snd first) in
  (recomputations (events_since Sample.world (snd second)) ≤ 1)%nat
  ∧ fst second = fst first
  ∧ recomputations (events_since (snd first) (snd second)) = 0%nat.
Proof.
  pose proof (available_riders_twice_within_ttl 3000 3299
                (Sample.get Sample.carol) (Sample.get Sample.bob)
                Sample.world ltac:(lia)) as [Hle Hsame].
  split; [exact Hle|]. apply Hsame. left. vm_compute. reflexivity.
Defined.

(** ** Lists of rows with a key *)
Section lists.
Context {A : Type} (own : A → Prop) `{∀ x, Decision (own x)} (key : A → Z).

Lemma filter_comm (P Q : A → Prop) `{∀ x, Decision (P x)} `{∀ x, Decision (Q x)}
    (l : list A) :
  filter P (filter Q l) = filter Q (filter P l).
Proof.
  induction l as [|y l IH]; [done|].
  rewrite !filter_cons. repeat case_decide; rewrite ?filter_cons; repeat case_decide; try done; by f_equal.
Qed.

Lemma filter_pk_owned pk0 (l : list A) x :
  filter (λ y, key y = pk0) l = [x] → own x →
  filter (λ y, key y = pk0) (filter own l) = [x].
Proof.
  intros Hx Hown. rewrite filter_comm, Hx. by apply filter_singleton_True.
Qed.

Lemma filter_pk_foreign pk0 (l : list A) :
  (∀ y, y ∈ l → key y = pk0 → ¬ own y) →
  filter (λ y, key y = pk0) (filter own l) = [].
Proof.
  intros Hf. induction l as [|y l IH]; [done|].
  rewrite filter_cons. case_decide.
  - rewrite filter_cons_False; [apply IH; intros; apply Hf; set_solver|].
    intros Hk. eapply Hf; [left| |]; done.
  - apply IH; intros; apply Hf; set_solver.
Qed.

Lemma filter_pk_unique (l : list A) x :
  NoDup (key <$> l) → x ∈ l → filter (λ y, key y = key x) l = [x].
Proof.
  induction l as [|y l IH]; [set_solver|].
  rewrite fmap_cons, NoDup_cons. intros [Hy Hnd] Hin.
  rewrite filter_cons. apply elem_of_cons in Hin as [<-|Hin].
  - rewrite decide_True by done. f_equal.
    destruct (filter _ l) as [|z l'] eqn:Hf; [done|].
    assert (z ∈ filter (λ y, key y = key x) l) as Hz by (rewrite Hf; left).
    apply list_elem_of_filter in Hz as [Hz1 Hz2]. exfalso. apply Hy.
    rewrite <- Hz1. by apply list_elem_of_fmap_2.
  - rewrite decide_False; [by apply IH|].
    intros Hk. apply Hy. rewrite Hk. by apply list_elem_of_fmap_2.
Qed.
End lists.

Lemma filter_none {A} (P : A → Prop) `{∀ x, Decision (P x)} (l : list A) :
  Forall (λ x, ¬ P x) l → filter P l = [].
Proof.
  induction 1 as [|x l Hx _ IH]; [done|]. by rewrite filter_cons_False.
Qed.

(** [get_object] on the riders: the row of the key, when the requester may
    see it. *)
Lemma Rider_get_object_found request pk0 rider w :
  filter (λ r, Rider.id r = pk0) (riders w) = [rider] →
  canAccess (user request) (Rider.user rider) →
  ModelViewSet.get_object RiderViewSet.get_queryset request pk0 w
  = (inr rider, logged [DbSelect TRider] w).
Proof.
  intros Hrow Hacc.
  unfold ModelViewSet.get_object, RiderViewSet.get_queryset.
  destruct (User.is_staff (user request)) eqn:Hs; unfold_M; cbn.
  - by rewrite Hrow.
  - destruct Hacc as [?|Hown]; [congruence|].
    by rewrite (filter_pk_owned _ _ _ _ _ Hrow Hown).
Qed.

Lemma Rider_get_object_foreign request pk0 w :
  User.is_staff (user request) = false →
  (∀ r, r ∈ riders w → Rider.id r = pk0 →
        User.id (Rider.user r) ≠ User.id (user request)) →
  ModelViewSet.get_object RiderViewSet.get_queryset request pk0 w
  = (inl {| data := BNotFound; status := HTTP_404_NOT_FOUND |},
     logged [DbSelect TRider] w).
Proof.
  intros Hs Hf.
  unfold ModelViewSet.get_object, RiderViewSet.get_queryset.
  rewrite Hs. unfold_M; cbn.
  by rewrite (filter_pk_foreign _ _ _ _ Hf).
Qed.

Lemma Rider_save_run (x old : Rider.t) w :
  filter (λ r, Rider.id r = Rider.id x) (riders w) = [old] →
  Manager.save x w
  = (inr tt,
     {| passengers := passengers w;
        riders := (λ y, if bool_decide (Rider.id y = Rider.id x) then x else y)
                    <$> riders w;
        cache := cache w;
        trace := trace w ++ [DbUpdate TRider (Rider.id x)] |}).
Proof.
  intros Hrow. unfold_M; cbn.
  rewrite bool_decide_true; [done|].
  apply Exists_exists. exists old.
  assert (old ∈ filter (λ r, Rider.id r = Rider.id x) (riders w)) as Hin
    by (rewrite Hrow; left).
  by apply list_elem_of_filter in Hin as [? ?].
Qed.

Lemma replace_same {A} (key : A → Z) (l : list A) x :
  filter (λ y, key y = key x) l = [x] →
  (λ y, if bool_decide (key y = key x) then x else y) <$> l = l.
Proof.
  intros Hrow.
  assert (∀ y, y ∈ l → key y = key x → y = x) as Huniq.
  { intros y Hy Hk.
    assert (y ∈ filter (λ y, key y = key x) l) as Hin
      by (apply list_elem_of_filter; done).
    rewrite Hrow in Hin. by apply list_elem_of_singleton in Hin. }
  clear Hrow. induction l as [|y l IH]; [done|].
  rewrite fmap_cons. f_equal.
  - case_bool_decide; [|done]. symmetry. apply Huniq; [left|done].
  - apply IH. intros; apply Huniq; [by right|done].
Qed.

(** The generic update touches neither the cache nor, in its trace, the
    slot. *)
Lemma Rider_update_frame {options : FieldOptions}
    required partial request pk0 w :
  ∃ rows' es,
    snd (run (RiderViewSet.update required partial request pk0) w)
    = {| passengers := passengers w; riders := rows'; cache := cache w;
         trace := trace w ++ es |}
    ∧ Forall (λ e, ∀ k, e ≠ CacheDelete k) es.
Proof.
  unfold RiderViewSet.update, ModelViewSet.update, ModelViewSet.get_object,
    RiderViewSet.get_queryset, ModelViewSet.perform_update, is_valid.
  destruct (User.is_staff (user request)); unfold_M; cbn.
  - destruct (filter _ (riders w)) as [|x [|y l]]; cbn.
    + eexists _, [_]. split; [reflexivity|]. repeat constructor; done.
    + destruct (to_internal_value _ _ _ _); cbn.
      * case_bool_decide; cbn; rewrite <- app_assoc; cbn; eexists _, _;
          (split; [reflexivity|]); repeat constructor; done.
      * eexists _, [_]. split; [reflexivity|]. repeat constructor; done.
    + eexists _, [_]. split; [reflexivity|]. repeat constructor; done.
  - destruct (filter _ (filter _ (riders w))) as [|x [|y l]]; cbn.
    + eexists _, [_]. split; [reflexivity|]. repeat constructor; done.
    + destruct (to_internal_value _ _ _ _); cbn.
      * case_bool_decide; cbn; rewrite <- app_assoc; cbn; eexists _, _;
          (split; [reflexivity|]); repeat constructor; done.
      * eexists _, [_]. split; [reflexivity|]. repeat constructor; done.
    + eexists _, [_]. split; [reflexivity|]. repeat constructor; done.
Qed.

Lemma Rider_validate_is_available {options : FieldOptions} required b0 :
  to_internal_value (A:=Rider.t) required true (writable_fields (A:=Rider.t))
    {[ "is_available" := VBool b0 ]}
  = Some {[ "is_available" := VBool b0 ]}.
Proof. vm_compute. reflexivity. Qed.

Lemma Rider_assign_is_available b0 r :
  assign {[ "is_available" := VBool b0 ]} r = Rider.set_is_available b0 r.
Proof. unfold assign. by rewrite map_fold_singleton. Qed.


Lemma bind_inr {A B} (m : M A) (f : A → M B) w a w' :
  m w = (inr a, w') → (m ≫= f) w = f a w'.
Proof. unfold mbind, M_bind. by intros ->. Qed.

Lemma bind_inl {A B} (m : M A) (f : A → M B) w r w' :
  m w = (inl r, w') → (m ≫= f) w = (inl r, w').
Proof. unfold mbind, M_bind. by intros ->. Qed.

(** ** What validation lets through, and what the assignments keep *)

Section validated.
Context `{ModelSerializer A} {options : FieldOptions}.

Lemma to_internal_value_keys required partial fs
    (payload vd : gmap string pyval) :
  to_internal_value required partial fs payload = Some vd →
  ∀ k v, vd !! k = Some v →
    k ∈ fs
    ∧ ∃ v0, payload !! k = Some v0
            ∧ run_validation (field_kind k) v0 = Some v.
Proof.
  revert vd. induction fs as [|f fs IH]; intros vd Hvd k v Hk.
  - injection Hvd as <-. by rewrite lookup_empty in Hk.
  - change (to_internal_value required partial (f :: fs) payload)
      with (to_internal_value required partial fs payload
            ≫= λ rest,
              match payload !! f with
              | None =>
                  if negb partial && bool_decide (f ∈ required)
                  then None else Some rest
              | Some v1 =>
                  run_validation (field_kind f) v1
                  ≫= λ v', Some (<[f := v']> rest)
              end) in Hvd.
    destruct (to_internal_value required partial fs payload) as [rest|];
      [|discriminate Hvd].
    cbn in Hvd. destruct (payload !! f) as [v1|] eqn:Hf.
    + destruct (run_validation (field_kind f) v1) as [v'|] eqn:Hv';
        [|discriminate Hvd].
      cbn in Hvd. injection Hvd as <-.
      destruct (decide (f = k)) as [->|Hne].
      * rewrite lookup_insert_eq in Hk. injection Hk as <-.
        split; [left|]. by exists v1.
      * rewrite lookup_insert_ne in Hk by done.
        destruct (IH rest eq_refl k v Hk) as [? ?]. split; [by right|done].
    + destruct (negb partial && bool_decide (f ∈ required));
        [discriminate Hvd|]. injection Hvd as <-.
      destruct (IH rest eq_refl k v Hk) as [? ?]. split; [by right|done].
Qed.
End validated.

Lemma Rider_writable_fields :
  writable_fields (A:=Rider.t)
  = ["profile_picture"; "license_number"; "license_picture";
     "id_number_picture"; "verification_status"; "verification_notes";
     "is_available"; "current_latitude"; "current_longitude"].
Proof. by vm_compute. Qed.

Lemma Passenger_writable_fields :
  writable_fields (A:=Passenger.t)
  = ["passenger_id"; "preferred_payment_method"; "home_address";
     "profile_picture"; "preferred_language"; "emergency_contact";
     "is_verified"].
Proof. by vm_compute. Qed.

(** A property that every assignment of a map keeps holds of the fold. *)
Lemma map_fold_invariant {A} (f : string → pyval → A → A) (I : A → Prop)
    (Q : string → pyval → Prop) (m : gmap string pyval) a :
  (∀ k v a', Q k v → I a' → I (f k v a')) →
  (∀ k v, m !! k = Some v → Q k v) → I a → I (map_fold f a m).
Proof.
  intros Hstep HQ Ha. revert HQ.
  apply (map_fold_weak_ind
           (λ a' m', (∀ k v, m' !! k = Some v → Q k v) → I a')); [done|].
  intros k v m' a' Hk IH HQ. apply Hstep.
  - apply HQ, lookup_insert_eq.
  - apply IH. intros k' v' Hk'. apply HQ.
    rewrite lookup_insert_ne; [done|]. intros ->. congruence.
Qed.

(** An assignment reaches every attribute, the key and the owner
    included: what keeps them in an update is the validation alone. *)
Lemma setattr_reaches_read_only z u d (r : Rider.t) (p : Passenger.t) :
  Rider.id (setattr "id" (VInt z) r) = z
  ∧ Rider.user (setattr "user" (VUser u) r) = u
  ∧ Rider.total_earnings (setattr "total_earnings" (VDec d) r) = d
  ∧ Passenger.id (setattr "id" (VInt z) p) = z
  ∧ Passenger.user (setattr "user" (VUser u) p) = u.
Proof. repeat split; vm_compute; reflexivity. Qed.

(** Assigning a field that a client may write keeps the key, the owner
    and the read-only attributes. *)
Lemma Rider_setattr_read_only f v r :
  f ∈ writable_fields (A:=Rider.t) →
  read_only_same r (Rider_setattr f v r)
  ∧ Rider.updated_at (Rider_setattr f v r) = Rider.updated_at r.
Proof.
  rewrite Rider_writable_fields. intros Hf.
  unfold Rider_setattr, read_only_same.
  repeat (case_match || case_bool_decide); subst; try done; not_listed Hf.
Qed.

Lemma Passenger_setattr_read_only f v p :
  f ∈ writable_fields (A:=Passenger.t) →
  Passenger_read_only_same p (Passenger_setattr f v p)
  ∧ Passenger.updated_at (Passenger_setattr f v p) = Passenger.updated_at p.
Proof.
  rewrite Passenger_writable_fields. intros Hf.
  unfold Passenger_setattr, Passenger_read_only_same.
  repeat (case_match || case_bool_decide); subst; try done; not_listed Hf.
Qed.

Lemma Rider_assign_read_only {options : FieldOptions}
    required partial payload vd r :
  to_internal_value (A:=Rider.t) required partial
    (writable_fields (A:=Rider.t)) payload = Some vd →
  read_only_same r (assign vd r).
Proof.
  intros Hvd. unfold assign.
  apply (map_fold_invariant _ (read_only_same r)
           (λ k _, k ∈ writable_fields (A:=Rider.t))).
  - intros k v r' Hk (I1 & I2 & I3 & I4 & I5 & I6).
    destruct (Rider_setattr_read_only k v r' Hk)
      as ((J1 & J2 & J3 & J4 & J5 & J6) & _).
    cbn [setattr Rider_model]. unfold read_only_same.
    by rewrite J1, J2, J3, J4, J5, J6.
  - intros k v Hk.
    by destruct (to_internal_value_keys _ _ _ _ _ Hvd k v Hk).
  - done.
Qed.

Lemma Passenger_assign_read_only {options : FieldOptions}
    required partial payload vd p :
  to_internal_value (A:=Passenger.t) required partial
    (writable_fields (A:=Passenger.t)) payload = Some vd →
  Passenger_read_only_same p (assign vd p).
Proof.
  intros Hvd. unfold assign.
  apply (map_fold_invariant _ (Passenger_read_only_same p)
           (λ k _, k ∈ writable_fields (A:=Passenger.t))).
  - intros k v p' Hk (I1 & I2 & I3).
    destruct (Passenger_setattr_read_only k v p' Hk) as ((J1 & J2 & J3) & _).
    cbn [setattr Passenger_model]. unfold Passenger_read_only_same.
    by rewrite J1, J2, J3.
  - intros k v Hk.
    by destruct (to_internal_value_keys _ _ _ _ _ Hvd k v Hk).
  - done.
Qed.

Lemma Rider_update_run {options : FieldOptions}
    required partial request pk0 rider vd w :
  filter (λ r, Rider.id r = pk0) (riders w) = [rider] →
  canAccess (user request) (Rider.user rider) →
  to_internal_value (A:=Rider.t) required partial
    (writable_fields (A:=Rider.t)) (request_data request) = Some vd →
  run (RiderViewSet.update required partial request pk0) w
  = (Response_ok (BObject (to_representation (assign vd rider))),
     {| passengers := passengers w;
        riders := (λ y, if bool_decide (Rider.id y = pk0)
                        then assign vd rider else y) <$> riders w;
        cache := cache w;
        trace := trace w ++ [DbSelect TRider; DbUpdate TRider pk0] |}).
Proof.
  intros Hrow Hacc Hvalid.
  assert (Rider.id rider = pk0) as Hpk.
  { assert (rider ∈ filter (λ r, Rider.id r = pk0) (riders w)) as Hin
      by (rewrite Hrow; left).
    by apply list_elem_of_filter in Hin as [? ?]. }
  destruct (Rider_assign_read_only _ _ _ _ rider Hvalid) as (Hid & _).
  unfold RiderViewSet.update, ModelViewSet.update, ModelViewSet.perform_update,
    is_valid, run.
  rewrite Hvalid.
  erewrite bind_inr by (by apply Rider_get_object_found).
  erewrite bind_inr by reflexivity.
  erewrite bind_inr.
  2:{ erewrite bind_inr; [reflexivity|].
      apply (Rider_save_run _ rider). cbn [logged riders].
      by rewrite Hid, Hpk. }
  cbn. rewrite Hid, Hpk, <- app_assoc. done.
Qed.

(** C3: a write through the generic update path never deletes the slot
    'available_riders'.  With rider A available and approved, rider B
    approved but unavailable, and the slot filled by a listing, making B
    available through a partial update leaves a listing less than 300
    seconds after the first one at A alone, although B now passes the
    filter. *)
Theorem generic_update_keeps_stale_cache {options : FieldOptions} :
  (∀ required partial request pk0 w,
     let w' := snd (run (RiderViewSet.update required partial request pk0) w) in
     cache w' = cache w
     ∧ CacheDelete "available_riders" ∉ events_since w w')
  ∧ (∀ required a b t0 t1 request0 request request1 w,
       riders w = [a; b] →
       available_and_approved a →
       Rider.is_available b = false →
       Rider.verification_status b = approved →
       Rider.id a ≠ Rider.id b →
       Cache.peek t0 "available_riders" (cache w) = None →
       canAccess (user request) (Rider.user b) →
       request_data request = {[ "is_available" := VBool true ]} →
       t1 < t0 + 300 →
       let listed := run (RiderViewSet.available_riders t0 request0) w in
       let updated :=
         run (RiderViewSet.partial_update required request (Rider.id b))
           (snd listed) in
       let again :=
         run (RiderViewSet.available_riders t1 request1) (snd updated) in
       fst listed = Response_ok (BList [to_representation a])
       ∧ status (fst updated) = HTTP_200_OK
       ∧ riders (snd updated) = [a; Rider.set_is_available true b]
       ∧ serialized_available (snd updated)
         = BList [to_representation a;
                  to_representation (Rider.set_is_available true b)]
       ∧ fst again = Response_ok (BList [to_representation a])).
Proof.
  split.
  - intros required partial request pk0 w.
    destruct (Rider_update_frame required partial request pk0 w)
      as (rows' & es & -> & Hes).
    cbn. split; [done|].
    unfold events_since; cbn. rewrite drop_app_length.
    intros Hin. eapply Forall_forall in Hes; [|exact Hin]. by eapply Hes.
  - intros required a b t0 t1 request0 request request1 w
      Hrows [Ha1 Ha2] Hb1 Hb2 Hne Hmiss Hacc Hdata Ht.
    assert (serialized_available w = BList [to_representation a]) as Hser.
    { unfold serialized_available. rewrite Hrows.
      rewrite filter_cons_True by done.
      rewrite filter_cons_False by (rewrite Hb1; intros [? ?]; done).
      done. }
    cbn zeta. rewrite (available_riders_run t0), Hmiss, Hser. cbn [fst snd].
    set (w1 := {| passengers := passengers w |}).
    assert (filter (λ r, Rider.id r = Rider.id b) (riders w1) = [b]) as Hrow.
    { cbn. rewrite Hrows. rewrite filter_cons_False by done.
      by rewrite filter_cons_True. }
    unfold RiderViewSet.partial_update, ModelViewSet.partial_update.
    fold (RiderViewSet.update required true).
    rewrite (Rider_update_run required true request (Rider.id b) b
               {[ "is_available" := VBool true ]} w1 Hrow Hacc)
      by (rewrite Hdata; apply Rider_validate_is_available).
    rewrite Rider_assign_is_available. cbn [fst snd riders status Response_ok].
    assert ((λ y, if bool_decide (Rider.id y = Rider.id b)
                  then Rider.set_is_available true b else y) <$> riders w1
            = [a; Rider.set_is_available true b]) as Hnew.
    { cbn. rewrite Hrows. cbn.
      by rewrite bool_decide_false, bool_decide_true. }
    rewrite Hnew. split; [done|]. split; [done|]. split; [done|].
    split.
    + unfold serialized_available. cbn [riders].
      rewrite filter_cons_True by done.
      by rewrite filter_cons_True.
    + rewrite (available_riders_run t1). cbn [cache w1].
      by rewrite peek_insert, bool_decide_true.
Qed.

Lemma generic_update_keeps_stale_cache_witness :
  let listed :=
    run (RiderViewSet.available_riders 3000 (Sample.get Sample.carol))
      Sample.world in
  let updated :=
    run (RiderViewSet.partial_update (options:=Sample.options) []
           (Sample.patch Sample.bob {[ "is_available" := VBool true ]}) 11)
      (snd listed) in
  let again :=
    run (RiderViewSet.available_riders 3299 (Sample.get Sample.carol))
      (snd updated) in
  fst listed = Response_ok (BList [to_representation Sample.rider_a])
  ∧ status (fst updated) = HTTP_200_OK
  ∧ riders (snd updated)
    = [Sample.rider_a; Rider.set_is_available true Sample.rider_b]
  ∧ serialized_available (snd updated)
    = BList [to_representation Sample.rider_a;
             to_representation (Rider.set_is_available true Sample.rider_b)]
  ∧ fst again = Response_ok (BList [to_representation Sample.rider_a]).
Proof.
  apply (proj2 (generic_update_keeps_stale_cache (options:=Sample.options)) []
           Sample.rider_a Sample.rider_b 3000 3299
           (Sample.get Sample.carol)
           (Sample.patch Sample.bob {[ "is_available" := VBool true ]})
           (Sample.get Sample.carol) Sample.world).
  - reflexivity.
  - split; reflexivity.
  - reflexivity.
  - reflexivity.
  - cbn. lia.
  - vm_compute. reflexivity.
  - right. reflexivity.
  - reflexivity.
  - lia.
Defined.

(** C9: when no rider is available and approved, a miss stores the empty
    list in the slot like any other result, and a second call less than
    300 seconds later is a hit: it returns the empty list and does not
    query the Rider table. *)
Theorem available_riders_caches_empty t1 t2 request1 request2 w :
  Cache.peek t1 "available_riders" (cache w) = None →
  Forall (λ r, ¬ available_and_approved r) (riders w) →
  t2 < t1 + 300 →
  let first := run (RiderViewSet.available_riders t1 request1) w in
  let second := run (RiderViewSet.available_riders t2 request2) (snd first) in
  fst first = Response_ok (BList [])
  ∧ cache (snd first) !! "available_riders"
    = Some {| entry_value := BList []; expires_at := t1 + 300 |}
  ∧ Cache.peek t2 "available_riders" (cache (snd first)) = Some (BList [])
  ∧ fst second = Response_ok (BList [])
  ∧ events_since (snd first) (snd second) = [CacheGet "available_riders"].
Proof.
  intros Hmiss Hnone Ht.
  assert (serialized_available w = BList []) as Hser.
  { unfold serialized_available. by rewrite (filter_none _ _ Hnone). }
  cbn zeta. rewrite (available_riders_run t1), Hmiss, Hser. cbn [fst snd].
  rewrite (available_riders_run t2). cbn [cache].
  rewrite peek_insert, bool_decide_true by done. cbn [fst snd].
  split; [done|]. split; [apply lookup_insert_eq|]. split; [done|].
  split; [done|]. by apply events_since_app.
Qed.

Lemma available_riders_caches_empty_witness :
  let w := set_riders [Sample.rider_b] Sample.world in
  let first :=
    run (RiderViewSet.available_riders 3000 (Sample.get Sample.carol)) w in
  let second :=
    run (RiderViewSet.available_riders 3299 (Sample.get Sample.carol))
      (snd first) in
  fst first = Response_ok (BList [])
  ∧ cache (snd first) !! "available_riders"
    = Some {| entry_value := BList []; expires_at := 3000 + 300 |}
  ∧ Cache.peek 3299 "available_riders" (cache (snd first)) = Some (BList [])
  ∧ fst second = Response_ok (BList [])
  ∧ events_since (snd first) (snd second) = [CacheGet "available_riders"].
Proof.
  apply (available_riders_caches_empty 3000 3299 (Sample.get Sample.carol)
           (Sample.get Sample.carol)
           (set_riders [Sample.rider_b] Sample.world)).
  - vm_compute. reflexivity.
  - repeat constructor. intros [H _]. discriminate H.
  - lia.
Defined.

(** ** my_profile *)

(** C7: for a requester who has no Rider profile, my_profile answers 404
    with the body {error: "Rider profile not found"}, and likewise for a
    requester without a Passenger profile; neither is a 403. *)
Theorem my_profile_not_found request w :
  (Forall (λ r, User.id (Rider.user r) ≠ User.id (user request)) (riders w) →
   run (RiderViewSet.my_profile request) w
   = ({| data := BError "Rider profile not found"; status := 404 |},
      logged [DbSelect TRider] w))
  ∧ (Forall (λ p, User.id (Passenger.user p) ≠ User.id (user request))
       (passengers w) →
     run (PassengerViewSet.my_profile request) w
     = ({| data := BError "Passenger profile not found"; status := 404 |},
        logged [DbSelect TPassenger] w)).
Proof.
  split; intros Hnone.
  - unfold RiderViewSet.my_profile. unfold_M. cbn.
    by rewrite (filter_none _ _ Hnone).
  - unfold PassengerViewSet.my_profile. unfold_M. cbn.
    by rewrite (filter_none _ _ Hnone).
Qed.

Lemma my_profile_not_found_witness :
  run (RiderViewSet.my_profile (Sample.get Sample.carol)) Sample.world
  = ({| data := BError "Rider profile not found"; status := 404 |},
     logged [DbSelect TRider] Sample.world)
  ∧ run (PassengerViewSet.my_profile (Sample.get Sample.alice)) Sample.world
    = ({| data := BError "Passenger profile not found"; status := 404 |},
       logged [DbSelect TPassenger] Sample.world).
Proof.
  split.
  - apply (proj1 (my_profile_not_found (Sample.get Sample.carol) Sample.world)).
    repeat constructor; cbn; lia.
  - apply (proj2 (my_profile_not_found (Sample.get Sample.alice) Sample.world)).
    repeat constructor; cbn; lia.
Defined.

(** ** update_location *)

(** The row of a key, in a table whose keys are distinct. *)
Lemma Rider_row_of_key rider w :
  NoDup (Rider.id <$> riders w) → rider ∈ riders w →
  filter (λ r, Rider.id r = Rider.id rider) (riders w) = [rider].
Proof. apply (filter_pk_unique Rider.id). Qed.

(** C6: a requester who is not staff and calls update_location on the rider
    of another user gets the 404 of get_object, whose queryset holds the
    requester's own riders only; the 403 branch of update_location is not
    reached.  Neither the store nor the cache is touched. *)
Theorem update_location_foreign_rider {column : DecimalColumn} request rider
    w :
  User.is_staff (user request) = false →
  NoDup (Rider.id <$> riders w) →
  rider ∈ riders w →
  User.id (Rider.user rider) ≠ User.id (user request) →
  run (RiderViewSet.update_location request (Rider.id rider)) w
  = ({| data := BNotFound; status := 404 |}, logged [DbSelect TRider] w).
Proof.
  intros Hs Hnd Hin Hother.
  unfold RiderViewSet.update_location, run.
  erewrite bind_inl; [reflexivity|].
  apply Rider_get_object_foreign; [done|].
  intros r Hr Hk.
  assert (r ∈ filter (λ r, Rider.id r = Rider.id rider) (riders w)) as Hr'
    by (by apply list_elem_of_filter).
  rewrite (Rider_row_of_key _ _ Hnd Hin) in Hr'.
  by apply list_elem_of_singleton in Hr' as ->.
Qed.

Lemma update_location_foreign_rider_witness :
  run (RiderViewSet.update_location (column:=Sample.column)
         (Sample.patch Sample.alice {[ "current_latitude" := VDec (-1950000) ]})
         11) Sample.cached_world
  = ({| data := BNotFound; status := 404 |},
     logged [DbSelect TRider] Sample.cached_world).
Proof.
  apply (update_location_foreign_rider (column:=Sample.column)
           (Sample.patch Sample.alice
              {[ "current_latitude" := VDec (-1950000) ]})
           Sample.rider_b Sample.cached_world).
  - reflexivity.
  - apply (bool_decide_unpack _). by vm_compute.
  - vm_compute. right. left.
  - cbn. lia.
Defined.

(** ** update_location on a rider the requester may update *)

Lemma set_both_same r :
  Rider.set_current_longitude (Rider.current_longitude r)
    (Rider.set_current_latitude (Rider.current_latitude r) r) = r.
Proof. by destruct r. Qed.

Lemma coordinates_apart_refl r : coordinates_apart r r.
Proof.
  exists (Rider.current_latitude r), (Rider.current_longitude r).
  by rewrite set_both_same.
Qed.

Lemma coordinates_apart_same r r' :
  coordinates_apart r r' →
  Rider.id r' = Rider.id r ∧ Rider.user r' = Rider.user r.
Proof. intros (x & y & ->). by destruct r. Qed.

(** The row an instance stands for, by what the payload supplies. *)
Lemma instance_under_located convert request rider :
  instance_under convert (located request rider)
  = match supplied convert
            (dict_get (request_data request) "current_latitude")
            (Rider.current_latitude rider),
          supplied convert
            (dict_get (request_data request) "current_longitude")
            (Rider.current_longitude rider) with
    | Some x, Some y =>
        Some (Rider.set_current_longitude y
                (Rider.set_current_latitude x rider))
    | _, _ => None
    end.
Proof.
  unfold instance_under, located, supplied.
  destruct (dict_get (request_data request) "current_latitude"),
    (dict_get (request_data request) "current_longitude"); reflexivity.
Qed.

Lemma instance_under_apart convert request rider rider' :
  instance_under convert (located request rider) = Some rider' →
  coordinates_apart rider rider'.
Proof.
  rewrite instance_under_located. intros Hi.
  destruct (supplied convert _ (Rider.current_latitude rider)) as [x|];
    [|discriminate Hi].
  destruct (supplied convert _ (Rider.current_longitude rider)) as [y|];
    [|discriminate Hi].
  injection Hi as <-. by exists x, y.
Qed.

Lemma supplied_None convert loaded : supplied convert VNone loaded = Some loaded.
Proof. reflexivity. Qed.

Lemma supplied_value convert v loaded :
  v ≠ VNone → supplied convert v loaded = Some <$> convert v.
Proof. intros Hv. by destruct v. Qed.

(** update_location with its assignments gathered in [located]. *)
Lemma update_location_unfold {column : DecimalColumn} request pk0 :
  RiderViewSet.update_location request pk0
  = (rider ← ModelViewSet.get_object RiderViewSet.get_queryset request pk0;
     if negb (User.eqb (Rider.user rider) (user request))
        && negb (User.is_staff (user request))
     then mret {| data := BError "Permission denied";
                  status := HTTP_403_FORBIDDEN |}
     else
       _ ← RiderInstance_save (located request rider);
       _ ← Cache.delete "available_riders";
       serializer_data ← RiderInstance_data (located request rider);
       mret (Response_ok (BObject serializer_data))).
Proof. reflexivity. Qed.

(** What update_location does on a rider the requester may update: a
    conversion that raises at the save leaves the store and the cache as
    they are; else the row is written and the slot deleted, whatever the
    serializer then makes of the instance. *)
Lemma update_location_run {column : DecimalColumn} request rider w :
  filter (λ r, Rider.id r = Rider.id rider) (riders w) = [rider] →
  canAccess (user request) (Rider.user rider) →
  run (RiderViewSet.update_location request (Rider.id rider)) w
  = match instance_under column_value (located request rider) with
    | Some rider' =>
        (answer (instance_under shown_value (located request rider)),
         {| passengers := passengers w;
            riders := with_row (Rider.id rider) rider' (riders w);
            cache := delete "available_riders" (cache w);
            trace := trace w ++ [DbSelect TRider;
                                 DbUpdate TRider (Rider.id rider);
                                 CacheDelete "available_riders"] |})
    | None =>
        ({| data := BServerError; status := 500 |},
         logged [DbSelect TRider] w)
    end.
Proof.
  intros Hrow Hacc.
  rewrite update_location_unfold. unfold run.
  erewrite bind_inr by (by apply Rider_get_object_found).
  assert (negb (User.eqb (Rider.user rider) (user request))
          && negb (User.is_staff (user request)) = false) as ->.
  { destruct Hacc as [->|Hown]; [by rewrite andb_false_r|].
    unfold User.eqb. by rewrite bool_decide_true. }
  unfold RiderInstance_save, RiderInstance_data.
  destruct (instance_under column_value _) as [rider'|] eqn:Hsave;
    [|reflexivity].
  destruct (coordinates_apart_same _ _ (instance_under_apart _ _ _ _ Hsave))
    as [Hid _].
  erewrite bind_inr.
  2:{ apply (Rider_save_run _ rider). cbn [logged riders].
      by rewrite Hid. }
  rewrite Hid. unfold with_row.
  destruct (instance_under shown_value _); unfold_M; cbn;
    by rewrite <- !app_assoc.
Qed.

(** C10: for a requester who owns the rider or is staff, update_location
    with neither coordinate in the payload answers 200, saves the rider
    and deletes the slot 'available_riders' while no row of the store
    changes.  With one coordinate supplied, whatever its value, nothing
    but that coordinate of that rider changes: when the column converts
    the value the rider is saved with it and the slot is deleted, and the
    answer is 200 with the rider as the serializer shows it, or 500 when
    the serializer cannot show the value (the row is written and the
    slot deleted all the same); when the column does not convert the
    value the answer is 500 and neither the store nor the cache is
    touched. *)
Theorem update_location_partial_payload {column : DecimalColumn} request
    rider w :
  NoDup (Rider.id <$> riders w) →
  rider ∈ riders w →
  canAccess (user request) (Rider.user rider) →
  let call := run (RiderViewSet.update_location request (Rider.id rider)) w in
  let latitude := dict_get (request_data request) "current_latitude" in
  let longitude := dict_get (request_data request) "current_longitude" in
  let effects :=
    [DbSelect TRider; DbUpdate TRider (Rider.id rider);
     CacheDelete "available_riders"] in
  let untouched :=
    ({| data := BServerError; status := 500 |}, logged [DbSelect TRider] w) in
  (latitude = VNone → longitude = VNone →
   fst call = Response_ok (BObject (to_representation rider))
   ∧ riders (snd call) = riders w
   ∧ passengers (snd call) = passengers w
   ∧ events_since w (snd call) = effects
   ∧ cache (snd call) !! "available_riders" = None)
  ∧ (latitude ≠ VNone → longitude = VNone →
     match column_value latitude with
     | Some x =>
         let rider' := Rider.set_current_latitude (Some x) rider in
         riders (snd call) = with_row (Rider.id rider) rider' (riders w)
         ∧ passengers (snd call) = passengers w
         ∧ Rider.current_latitude rider' = Some x
         ∧ unchanged_but_latitude rider rider'
         ∧ events_since w (snd call) = effects
         ∧ cache (snd call) !! "available_riders" = None
         ∧ fst call
           = match shown_value latitude with
             | Some x' =>
                 Response_ok
                   (BObject (to_representation
                               (Rider.set_current_latitude (Some x') rider)))
             | None => {| data := BServerError; status := 500 |}
             end
     | None => call = untouched
     end)
  ∧ (latitude = VNone → longitude ≠ VNone →
     match column_value longitude with
     | Some y =>
         let rider' := Rider.set_current_longitude (Some y) rider in
         riders (snd call) = with_row (Rider.id rider) rider' (riders w)
         ∧ passengers (snd call) = passengers w
         ∧ Rider.current_longitude rider' = Some y
         ∧ unchanged_but_longitude rider rider'
         ∧ events_since w (snd call) = effects
         ∧ cache (snd call) !! "available_riders" = None
         ∧ fst call
           = match shown_value longitude with
             | Some y' =>
                 Response_ok
                   (BObject (to_representation
                               (Rider.set_current_longitude (Some y') rider)))
             | None => {| data := BServerError; status := 500 |}
             end
     | None => call = untouched
     end).
Proof.
  intros Hnd Hin Hacc call latitude longitude effects untouched.
  pose proof (Rider_row_of_key _ _ Hnd Hin) as Hrow.
  pose proof (update_location_run request rider w Hrow Hacc) as Hrun.
  rewrite !instance_under_located in Hrun.
  fold latitude longitude in Hrun. subst call untouched.
  split; [|split].
  - intros Hlat Hlng. rewrite Hlat, Hlng, !supplied_None in Hrun.
    rewrite set_both_same in Hrun. rewrite Hrun.
    cbn [fst snd riders passengers cache answer].
    split; [done|]. split; [by apply replace_same|]. split; [done|].
    split; [by apply events_since_app|]. apply lookup_delete_eq.
  - intros Hlat Hlng.
    rewrite Hlng, !supplied_None, !(supplied_value _ latitude) in Hrun
      by done.
    destruct (column_value latitude) as [x|]; cbn [fmap option_fmap option_map]
      in Hrun; [|exact Hrun].
    intros rider'.
    replace (Rider.set_current_longitude _ _) with rider' in Hrun
      by (by destruct rider).
    rewrite Hrun. cbn [fst snd riders passengers cache].
    split; [done|]. split; [done|]. split; [done|].
    split; [by repeat split|].
    split; [by apply events_since_app|].
    split; [apply lookup_delete_eq|].
    destruct (shown_value latitude) as [x'|]; cbn; [|done].
    by destruct rider.
  - intros Hlat Hlng.
    rewrite Hlat, !supplied_None, !(supplied_value _ longitude) in Hrun
      by done.
    destruct (column_value longitude) as [y|];
      cbn [fmap option_fmap option_map] in Hrun; [|exact Hrun].
    intros rider'.
    replace (Rider.set_current_longitude _ _) with rider' in Hrun
      by (by destruct rider).
    rewrite Hrun. cbn [fst snd riders passengers cache].
    split; [done|]. split; [done|]. split; [done|].
    split; [by repeat split|].
    split; [by apply events_since_app|].
    split; [apply lookup_delete_eq|].
    destruct (shown_value longitude) as [y'|]; cbn; [|done].
    by destruct rider.
Qed.

(** ** create *)

(** The instance built for a requester from validated data belongs to
    the requester and has the key it is given: validated data holds
    neither "user" nor "id". *)
Lemma Passenger_init_owner {options : FieldOptions}
    pk0 now u required partial payload
    (vd : gmap string pyval) :
  to_internal_value (A:=Passenger.t) required partial
    (writable_fields (A:=Passenger.t)) payload = Some vd →
  ∃ p, init pk0 now ({[ "user" := VUser u ]} ∪ vd) = Some p
       ∧ Passenger.user p = u ∧ Passenger.id p = pk0.
Proof.
  intros Hvd. cbn [init Passenger_model]. unfold Passenger_init.
  rewrite (lookup_union_Some_l _ _ _ (VUser u))
    by apply lookup_singleton_eq.
  eexists. split; [reflexivity|].
  apply (map_fold_invariant _
           (λ p, Passenger.user p = u ∧ Passenger.id p = pk0)
           (λ k v, (k = "user" ∧ v = VUser u)
                   ∨ k ∈ writable_fields (A:=Passenger.t))).
  - intros k v p [[-> ->]|Hk] [I1 I2].
    + unfold Passenger_setattr. by rewrite bool_decide_true.
    + destruct (Passenger_setattr_read_only k v p Hk) as ((J1 & J2 & _) & _).
      by rewrite J1, J2.
  - intros k v Hk. apply lookup_union_Some_raw in Hk as [Hk|[_ Hk]].
    + left. by apply lookup_singleton_Some in Hk as [<- <-].
    + right. by destruct (to_internal_value_keys _ _ _ _ _ Hvd k v Hk).
  - done.
Qed.

Lemma Rider_init_owner {options : FieldOptions}
    pk0 now u required partial payload
    (vd : gmap string pyval) :
  to_internal_value (A:=Rider.t) required partial
    (writable_fields (A:=Rider.t)) payload = Some vd →
  ∃ r, init pk0 now ({[ "user" := VUser u ]} ∪ vd) = Some r
       ∧ Rider.user r = u ∧ Rider.id r = pk0.
Proof.
  intros Hvd. cbn [init Rider_model]. unfold Rider_init.
  rewrite (lookup_union_Some_l _ _ _ (VUser u))
    by apply lookup_singleton_eq.
  eexists. split; [reflexivity|].
  apply (map_fold_invariant _
           (λ r, Rider.user r = u ∧ Rider.id r = pk0)
           (λ k v, (k = "user" ∧ v = VUser u)
                   ∨ k ∈ writable_fields (A:=Rider.t))).
  - intros k v r [[-> ->]|Hk] [I1 I2].
    + unfold Rider_setattr. by rewrite bool_decide_true.
    + destruct (Rider_setattr_read_only k v r Hk) as ((J1 & J2 & _) & _).
      by rewrite J1, J2.
  - intros k v Hk. apply lookup_union_Some_raw in Hk as [Hk|[_ Hk]].
    + left. by apply lookup_singleton_Some in Hk as [<- <-].
    + right. by destruct (to_internal_value_keys _ _ _ _ _ Hvd k v Hk).
  - done.
Qed.

(** What create does, by the validation of the payload and the profiles
    already in the table. *)
Lemma Passenger_create_run {options : FieldOptions} required now request w :
  match to_internal_value (A:=Passenger.t) required false
          (writable_fields (A:=Passenger.t))
          (request_data request) with
  | None =>
      run (PassengerViewSet.create required now request) w
      = ({| data := BInvalid; status := 400 |}, w)
  | Some vd =>
      if bool_decide (Exists (λ y, User.id (Passenger.user y)
                                   = User.id (user request)) (passengers w))
      then run (PassengerViewSet.create required now request) w
           = ({| data := BServerError; status := 500 |}, w)
      else ∃ p,
        Passenger.user p = user request
        ∧ Passenger.id p = next_pk (passengers w)
        ∧ run (PassengerViewSet.create required now request) w
          = ({| data := BObject (to_representation p); status := 201 |},
             {| passengers := passengers w ++ [p]; riders := riders w;
                cache := cache w;
                trace := trace w ++ [DbInsert TPassenger (Passenger.id p)] |})
  end.
Proof.
  unfold PassengerViewSet.create, ModelViewSet.create,
    PassengerViewSet.perform_create, save_new, is_valid, run.
  destruct (to_internal_value _ _ _ _) as [vd|] eqn:Hvd; [|reflexivity].
  destruct (Passenger_init_owner (next_pk (passengers w)) now (user request)
              _ _ _ vd Hvd) as (p & Hinit & Hu & Hpk).
  erewrite (bind_inr (mret vd)) by reflexivity.
  unfold Manager.create. unfold_M. cbn [rows Passenger_model].
  rewrite Hinit. cbn [owner Passenger_model]. rewrite Hu.
  case_bool_decide; [done|].
  exists p. split; [done|]. split; [done|]. by destruct w.
Qed.

Lemma Rider_create_run {options : FieldOptions} required now request w :
  match to_internal_value (A:=Rider.t) required false
          (writable_fields (A:=Rider.t))
          (request_data request) with
  | None =>
      run (RiderViewSet.create required now request) w
      = ({| data := BInvalid; status := 400 |}, w)
  | Some vd =>
      if bool_decide (Exists (λ y, User.id (Rider.user y)
                                   = User.id (user request)) (riders w))
      then run (RiderViewSet.create required now request) w
           = ({| data := BServerError; status := 500 |}, w)
      else ∃ r,
        Rider.user r = user request
        ∧ Rider.id r = next_pk (riders w)
        ∧ run (RiderViewSet.create required now request) w
          = ({| data := BObject (to_representation r); status := 201 |},
             {| passengers := passengers w; riders := riders w ++ [r];
                cache := cache w;
                trace := trace w ++ [DbInsert TRider (Rider.id r)] |})
  end.
Proof.
  unfold RiderViewSet.create, ModelViewSet.create,
    RiderViewSet.perform_create, save_new, is_valid, run.
  destruct (to_internal_value _ _ _ _) as [vd|] eqn:Hvd; [|reflexivity].
  destruct (Rider_init_owner (next_pk (riders w)) now (user request)
              _ _ _ vd Hvd) as (r & Hinit & Hu & Hpk).
  erewrite (bind_inr (mret vd)) by reflexivity.
  unfold Manager.create. unfold_M. cbn [rows Rider_model].
  rewrite Hinit. cbn [owner Rider_model]. rewrite Hu.
  case_bool_decide; [done|].
  exists r. split; [done|]. split; [done|]. by destruct w.
Qed.

(** C5: the profile a create persists belongs to the authenticated
    requester, whatever the payload holds under "user", "owner" or any
    other key; and a create whose payload validates, for a requester
    without a profile of the type, does persist one. *)
Theorem create_stamps_requester {options : FieldOptions}
    required now request w :
  (∀ resp w',
     run (PassengerViewSet.create required now request) w = (resp, w') →
     status resp = HTTP_201_CREATED →
     ∃ p, passengers w' = passengers w ++ [p]
          ∧ Passenger.user p = user request
          ∧ data resp = BObject (to_representation p))
  ∧ (∀ resp w',
       run (RiderViewSet.create required now request) w = (resp, w') →
       status resp = HTTP_201_CREATED →
       ∃ r, riders w' = riders w ++ [r]
            ∧ Rider.user r = user request
            ∧ data resp = BObject (to_representation r))
  ∧ (is_Some (to_internal_value (A:=Passenger.t) required false
                (writable_fields (A:=Passenger.t)) (request_data request)) →
     Forall (λ y, User.id (Passenger.user y) ≠ User.id (user request))
       (passengers w) →
     status (fst (run (PassengerViewSet.create required now request) w))
     = HTTP_201_CREATED)
  ∧ (is_Some (to_internal_value (A:=Rider.t) required false
                (writable_fields (A:=Rider.t)) (request_data request)) →
     Forall (λ y, User.id (Rider.user y) ≠ User.id (user request))
       (riders w) →
     status (fst (run (RiderViewSet.create required now request) w))
     = HTTP_201_CREATED).
Proof.
  pose proof (Passenger_create_run required now request w) as HP.
  pose proof (Rider_create_run required now request w) as HR.
  split; [|split; [|split]].
  - intros resp w' Hrun Hok.
    clear -HP Hrun Hok. repeat case_match.
    + rewrite HP in Hrun. injection Hrun as <- <-. discriminate Hok.
    + destruct HP as (p & Hu & _ & HP).
      rewrite HP in Hrun. injection Hrun as <- <-. by exists p.
    + rewrite HP in Hrun. injection Hrun as <- <-. discriminate Hok.
  - intros resp w' Hrun Hok.
    clear -HR Hrun Hok. repeat case_match.
    + rewrite HR in Hrun. injection Hrun as <- <-. discriminate Hok.
    + destruct HR as (r & Hu & _ & HR).
      rewrite HR in Hrun. injection Hrun as <- <-. by exists r.
    + rewrite HR in Hrun. injection Hrun as <- <-. discriminate Hok.
  - intros [vd Hvd] Hfree. rewrite Hvd in HP.
    rewrite bool_decide_false in HP.
    + destruct HP as (p & _ & _ & ->). reflexivity.
    + rewrite Exists_exists. intros (y & Hy & Hsame).
      rewrite Forall_forall in Hfree. exact (Hfree y Hy Hsame).
  - intros [vd Hvd] Hfree. rewrite Hvd in HR.
    rewrite bool_decide_false in HR.
    + destruct HR as (r & _ & _ & ->). reflexivity.
    + rewrite Exists_exists. intros (y & Hy & Hsame).
      rewrite Forall_forall in Hfree. exact (Hfree y Hy Hsame).
Qed.

Lemma create_stamps_requester_witness :
  ∃ p,
    passengers
      (snd (run (PassengerViewSet.create (options:=Sample.options) [] 4000
                   (Sample.patch Sample.alice Sample.intruding_payload))
              Sample.world))
    = passengers Sample.world ++ [p]
    ∧ Passenger.user p = Sample.alice
    ∧ data (fst (run (PassengerViewSet.create (options:=Sample.options) [] 4000
                        (Sample.patch Sample.alice Sample.intruding_payload))
                   Sample.world))
      = BObject (to_representation p).
Proof.
  apply (proj1 (create_stamps_requester (options:=Sample.options) [] 4000
                  (Sample.patch Sample.alice Sample.intruding_payload)
                  Sample.world)).
  - apply surjective_pairing.
  - vm_compute. reflexivity.
Defined.

(** ** list and retrieve *)

Section policy.
Context {A : Type} (own : A → User.t).

Lemma filter_canAccess_staff u (l : list A) :
  User.is_staff u = true → filter (λ x, canAccess u (own x)) l = l.
Proof.
  intros Hs. induction l as [|x l IH]; [done|].
  rewrite filter_cons_True by (by left). by rewrite IH.
Qed.

Lemma filter_canAccess_other u (l : list A) :
  User.is_staff u = false →
  filter (λ x, canAccess u (own x)) l
  = filter (λ x, User.id (own x) = User.id u) l.
Proof.
  intros Hs. apply list_filter_iff. intros x. unfold canAccess.
  rewrite Hs. split; [intros [?|?]; done|by right].
Qed.
End policy.

Lemma Rider_list_run request w :
  run (RiderViewSet.list request) w
  = (Response_ok
       (BList (to_representation <$>
                 filter (λ r, canAccess (user request) (Rider.user r))
                   (riders w))),
     logged [DbSelect TRider] w).
Proof.
  unfold RiderViewSet.list, ModelViewSet.list, RiderViewSet.get_queryset.
  destruct (User.is_staff (user request)) eqn:Hs; unfold_M; cbn.
  - by rewrite (filter_canAccess_staff Rider.user).
  - by rewrite (filter_canAccess_other Rider.user).
Qed.

Lemma Passenger_list_run request w :
  run (PassengerViewSet.list request) w
  = (Response_ok
       (BList (to_representation <$>
                 filter (λ p, canAccess (user request) (Passenger.user p))
                   (passengers w))),
     logged [DbSelect TPassenger] w).
Proof.
  unfold PassengerViewSet.list, ModelViewSet.list,
    PassengerViewSet.get_queryset.
  destruct (User.is_staff (user request)) eqn:Hs; unfold_M; cbn.
  - by rewrite (filter_canAccess_staff Passenger.user).
  - by rewrite (filter_canAccess_other Passenger.user).
Qed.

Lemma Passenger_get_object_foreign request pk0 w :
  User.is_staff (user request) = false →
  (∀ p, p ∈ passengers w → Passenger.id p = pk0 →
        User.id (Passenger.user p) ≠ User.id (user request)) →
  ModelViewSet.get_object PassengerViewSet.get_queryset request pk0 w
  = (inl {| data := BNotFound; status := HTTP_404_NOT_FOUND |},
     logged [DbSelect TPassenger] w).
Proof.
  intros Hs Hf.
  unfold ModelViewSet.get_object, PassengerViewSet.get_queryset.
  rewrite Hs. unfold_M; cbn.
  by rewrite (filter_pk_foreign _ _ _ _ Hf).
Qed.

Lemma unique_key_owner {A} (key : A → Z) (l : list A) x y :
  NoDup (key <$> l) → x ∈ l → y ∈ l → key y = key x → y = x.
Proof.
  intros Hnd Hx Hy Hk.
  assert (y ∈ filter (λ z, key z = key x) l) as Hin
    by (by apply list_elem_of_filter).
  rewrite (filter_pk_unique key l x Hnd Hx) in Hin.
  by apply list_elem_of_singleton in Hin.
Qed.

(** C4: list on either resource returns exactly the profiles the access
    policy permits: every profile for a staff requester, and for any other
    requester no profile owned by another user; retrieve of such a
    profile is answered 404. *)
Theorem list_is_permitted_subset request w :
  (fst (run (RiderViewSet.list request) w)
   = Response_ok
       (BList (to_representation <$>
                 filter (λ r, canAccess (user request) (Rider.user r))
                   (riders w)))
   ∧ fst (run (PassengerViewSet.list request) w)
     = Response_ok
         (BList (to_representation <$>
                   filter (λ p, canAccess (user request) (Passenger.user p))
                     (passengers w))))
  ∧ (User.is_staff (user request) = true →
     (∀ r, r ∈ riders w →
           to_representation r
           ∈ listed (fst (run (RiderViewSet.list request) w)))
     ∧ (∀ p, p ∈ passengers w →
             to_representation p
             ∈ listed (fst (run (PassengerViewSet.list request) w))))
  ∧ (User.is_staff (user request) = false →
     (∀ r, r ∈ riders w →
           User.id (Rider.user r) ≠ User.id (user request) →
           (to_representation r
            ∉ listed (fst (run (RiderViewSet.list request) w)))
           ∧ (NoDup (Rider.id <$> riders w) →
              fst (run (RiderViewSet.retrieve request (Rider.id r)) w)
              = {| data := BNotFound; status := 404 |}))
     ∧ (∀ p, p ∈ passengers w →
             User.id (Passenger.user p) ≠ User.id (user request) →
             (to_representation p
              ∉ listed (fst (run (PassengerViewSet.list request) w)))
             ∧ (NoDup (Passenger.id <$> passengers w) →
                fst (run (PassengerViewSet.retrieve request (Passenger.id p))
                       w)
                = {| data := BNotFound; status := 404 |}))).
Proof.
  rewrite Rider_list_run, Passenger_list_run. cbn [fst listed data Response_ok].
  split; [done|]. split.
  - intros Hs.
    rewrite (filter_canAccess_staff Rider.user) by done.
    rewrite (filter_canAccess_staff Passenger.user) by done.
    split; intros x Hx; by apply list_elem_of_fmap_2.
  - intros Hs. split.
    + intros r Hr Hother. split.
      * intros Hin. apply list_elem_of_fmap in Hin as (r' & Heq & Hr').
        apply list_elem_of_filter in Hr' as [[Hstaff|Hown] _]; [congruence|].
        apply (f_equal view_owner_id) in Heq. cbn in Heq. congruence.
      * intros Hnd. unfold RiderViewSet.retrieve, ModelViewSet.retrieve, run.
        erewrite bind_inl; [reflexivity|].
        apply Rider_get_object_foreign; [done|].
        intros r' Hr' Hk.
        by rewrite (unique_key_owner Rider.id _ _ _ Hnd Hr Hr' Hk).
    + intros p Hp Hother. split.
      * intros Hin. apply list_elem_of_fmap in Hin as (p' & Heq & Hp').
        apply list_elem_of_filter in Hp' as [[Hstaff|Hown] _]; [congruence|].
        apply (f_equal view_owner_id) in Heq. cbn in Heq. congruence.
      * intros Hnd.
        unfold PassengerViewSet.retrieve, ModelViewSet.retrieve, run.
        erewrite bind_inl; [reflexivity|].
        apply Passenger_get_object_foreign; [done|].
        intros p' Hp' Hk.
        by rewrite (unique_key_owner Passenger.id _ _ _ Hnd Hp Hp' Hk).
Qed.

Lemma list_is_permitted_subset_witness :
  to_representation Sample.rider_b
  ∈ listed (fst (run (RiderViewSet.list (Sample.get Sample.staff))
                   Sample.world))
  ∧ (to_representation Sample.rider_b
     ∉ listed (fst (run (RiderViewSet.list (Sample.get Sample.alice))
                      Sample.world)))
  ∧ fst (run (RiderViewSet.retrieve (Sample.get Sample.alice) 11)
           Sample.world)
    = {| data := BNotFound; status := 404 |}.
Proof.
  split.
  - apply (proj1 (proj1 (proj2 (list_is_permitted_subset
                                  (Sample.get Sample.staff) Sample.world))
                    eq_refl)).
    vm_compute. right. left.
  - assert (Sample.rider_b ∈ riders Sample.world) as Hin
      by (vm_compute; right; left).
    assert (User.id (Rider.user Sample.rider_b)
            ≠ User.id (user (Sample.get Sample.alice))) as Hother
      by (cbn; lia).
    destruct (proj1 (proj2 (proj2 (list_is_permitted_subset
                                     (Sample.get Sample.alice) Sample.world))
                       eq_refl) Sample.rider_b Hin Hother) as [Hout H404].
    split; [exact Hout|]. apply H404.
    apply (bool_decide_unpack _). by vm_compute.
Defined.

Lemma update_location_partial_payload_witness :
  let empty := Sample.patch Sample.alice ∅ in
  let north := Sample.patch Sample.staff
                 {[ "current_latitude" := VStr "-1.95" ]} in
  let flag := Sample.patch Sample.alice
                {[ "current_latitude" := VBool true ]} in
  let moved := Rider.set_current_latitude (Some (-1950000)) Sample.rider_a in
  let flagged := Rider.set_current_latitude (Some 1000000) Sample.rider_a in
  let call request :=
    run (RiderViewSet.update_location (column:=Sample.column) request 10)
      Sample.cached_world in
  (fst (call empty) = Response_ok (BObject (to_representation Sample.rider_a))
   ∧ riders (snd (call empty)) = riders Sample.cached_world
   ∧ cache (snd (call empty)) !! "available_riders" = None)
  ∧ (fst (call north) = Response_ok (BObject (to_representation moved))
     ∧ riders (snd (call north)) = [moved; Sample.rider_b])
  ∧ (fst (call flag) = {| data := BServerError; status := 500 |}
     ∧ riders (snd (call flag)) = [flagged; Sample.rider_b]
     ∧ cache (snd (call flag)) !! "available_riders" = None).
Proof.
  assert (NoDup (Rider.id <$> riders Sample.cached_world)) as Hnd
    by (apply (bool_decide_unpack _); by vm_compute).
  assert (Sample.rider_a ∈ riders Sample.cached_world) as Hin
    by (vm_compute; left).
  cbn zeta. split; [|split].
  - destruct (proj1 (update_location_partial_payload (column:=Sample.column)
                       (Sample.patch Sample.alice ∅) Sample.rider_a
                       Sample.cached_world Hnd Hin
                       (or_intror eq_refl)))
      as (H1 & H2 & _ & _ & H5); [by vm_compute|by vm_compute|].
    split; [exact H1|]. split; [exact H2|exact H5].
  - pose proof (proj1 (proj2 (update_location_partial_payload
                                (column:=Sample.column)
                                (Sample.patch Sample.staff
                                   {[ "current_latitude" := VStr "-1.95" ]})
                                Sample.rider_a Sample.cached_world Hnd Hin
                                (or_introl eq_refl)))) as H.
    assert (dict_get
              (request_data
                 (Sample.patch Sample.staff
                    {[ "current_latitude" := VStr "-1.95" ]}))
              "current_latitude" = VStr "-1.95") as Hlat
      by (vm_compute; reflexivity).
    rewrite Hlat in H.
    destruct H as (H1 & _ & _ & _ & _ & _ & H7);
      [discriminate|by vm_compute|].
    split; [exact H7|]. etrans; [exact H1|]. vm_compute. reflexivity.
  - pose proof (proj1 (proj2 (update_location_partial_payload
                                (column:=Sample.column)
                                (Sample.patch Sample.alice
                                   {[ "current_latitude" := VBool true ]})
                                Sample.rider_a Sample.cached_world Hnd Hin
                                (or_intror eq_refl)))) as H.
    assert (dict_get
              (request_data
                 (Sample.patch Sample.alice
                    {[ "current_latitude" := VBool true ]}))
              "current_latitude" = VBool true) as Hlat
      by (vm_compute; reflexivity).
    rewrite Hlat in H.
    destruct H as (H1 & _ & _ & _ & _ & H6 & H7);
      [discriminate|by vm_compute|].
    split; [exact H7|]. split; [|exact H6].
    etrans; [exact H1|]. vm_compute. reflexivity.
Defined.

(** ** Further properties of the view sets *)

Lemma Rider_visible_owned request w x :
  User.is_staff (user request) = false →
  x ∈ filter (λ r, User.id (Rider.user r) = User.id (user request)) (riders w) →
  User.eqb (Rider.user x) (user request) = true.
Proof.
  intros _ Hx. apply list_elem_of_filter in Hx as [Hx _].
  unfold User.eqb. by rewrite bool_decide_true.
Qed.

(** X1: update_location never answers 403: the row that get_object hands
    to a requester who is not staff is one of the requester's own. *)
Theorem update_location_never_forbidden {column : DecimalColumn} request
    pk0 w :
  status (fst (run (RiderViewSet.update_location request pk0) w))
  ≠ HTTP_403_FORBIDDEN
  ∧ data (fst (run (RiderViewSet.update_location request pk0) w))
    ≠ BError "Permission denied".
Proof.
  unfold RiderViewSet.update_location, ModelViewSet.get_object,
    RiderViewSet.get_queryset, RiderInstance_save, RiderInstance_data.
  destruct (User.is_staff (user request)) eqn:Hs; unfold_M; cbn.
  - destruct (filter _ (riders w)) as [|x [|y l]]; cbn; try done.
    rewrite andb_false_r.
    destruct (instance_under column_value _); cbn; try done.
    destruct (instance_under shown_value _); cbn; try done.
    all: case_bool_decide; cbn; done.
  - destruct (filter _ (filter _ (riders w))) as [|x [|y l]] eqn:Hf; cbn;
      try done.
    assert (x ∈ filter (λ r, User.id (Rider.user r) = User.id (user request))
                  (riders w)) as Hx.
    { assert (x ∈ [x]) as Hin by left. rewrite <- Hf in Hin.
      by apply list_elem_of_filter in Hin as [_ ?]. }
    rewrite (Rider_visible_owned request w x Hs Hx). cbn.
    destruct (instance_under column_value _); cbn; try done.
    destruct (instance_under shown_value _); cbn; try done.
    all: case_bool_decide; cbn; done.
Qed.

Lemma filter_key_absent {A} (key : A → Z) pk0 (l : list A) :
  Forall (λ x, key x ≠ pk0) l → filter (λ x, key x = pk0) l = [].
Proof. intros H. by apply filter_none. Qed.

Lemma Forall_filter_keep {A} (P Q : A → Prop) `{∀ x, Decision (Q x)}
    (l : list A) :
  Forall P l → Forall P (filter Q l).
Proof.
  rewrite !Forall_forall. intros HP x Hx.
  apply list_elem_of_filter in Hx as [_ Hx]. by apply HP.
Qed.

Lemma Rider_get_object_absent request pk0 w :
  Forall (λ r, Rider.id r ≠ pk0) (riders w) →
  ModelViewSet.get_object RiderViewSet.get_queryset request pk0 w
  = (inl {| data := BNotFound; status := HTTP_404_NOT_FOUND |},
     logged [DbSelect TRider] w).
Proof.
  intros Habs.
  unfold ModelViewSet.get_object, RiderViewSet.get_queryset.
  destruct (User.is_staff (user request)); unfold_M; cbn.
  - by rewrite (filter_key_absent Rider.id pk0 _ Habs).
  - rewrite (filter_key_absent Rider.id pk0); [done|].
    by apply Forall_filter_keep.
Qed.

Lemma Passenger_get_object_absent request pk0 w :
  Forall (λ p, Passenger.id p ≠ pk0) (passengers w) →
  ModelViewSet.get_object PassengerViewSet.get_queryset request pk0 w
  = (inl {| data := BNotFound; status := HTTP_404_NOT_FOUND |},
     logged [DbSelect TPassenger] w).
Proof.
  intros Habs.
  unfold ModelViewSet.get_object, PassengerViewSet.get_queryset.
  destruct (User.is_staff (user request)); unfold_M; cbn.
  - by rewrite (filter_key_absent Passenger.id pk0 _ Habs).
  - rewrite (filter_key_absent Passenger.id pk0); [done|].
    by apply Forall_filter_keep.
Qed.

(** X2: an id that no rider has is answered 404 by update_location,
    retrieve and the generic update alike, for staff as for anyone else
    and whatever the payload; nothing is saved and the cache slot stays. *)
Theorem unknown_rider_not_found {options : FieldOptions} {column : DecimalColumn}
    required partial
    request pk0 w :
  Forall (λ r, Rider.id r ≠ pk0) (riders w) →
  let not_found :=
    ({| data := BNotFound; status := 404 |}, logged [DbSelect TRider] w) in
  run (RiderViewSet.update_location request pk0) w = not_found
  ∧ run (RiderViewSet.retrieve request pk0) w = not_found
  ∧ run (RiderViewSet.update required partial request pk0) w = not_found.
Proof.
  intros Habs not_found.
  pose proof (Rider_get_object_absent request pk0 w Habs) as Hget.
  split; [|split].
  - unfold RiderViewSet.update_location, run. by erewrite bind_inl.
  - unfold RiderViewSet.retrieve, ModelViewSet.retrieve, run.
    by erewrite bind_inl.
  - unfold RiderViewSet.update, ModelViewSet.update, run.
    by erewrite bind_inl.
Qed.

Lemma unknown_rider_not_found_witness :
  let w := Sample.cached_world in
  let request :=
    Sample.patch Sample.staff {[ "current_latitude" := VDec 1 ]} in
  run (RiderViewSet.update_location (column:=Sample.column) request 99) w
  = ({| data := BNotFound; status := 404 |}, logged [DbSelect TRider] w).
Proof.
  apply (unknown_rider_not_found (options:=Sample.options) (column:=Sample.column)
      [] true
           (Sample.patch Sample.staff {[ "current_latitude" := VDec 1 ]})
           99 Sample.cached_world).
  vm_compute. repeat constructor; discriminate.
Defined.

(** X3: the read actions write nothing: list, retrieve and my_profile of
    either resource leave both tables and the cache as they are (one query
    is all they perform), and available_riders leaves both tables as they
    are. *)
Theorem read_actions_write_nothing now request pk0 w :
  snd (run (RiderViewSet.list request) w) = logged [DbSelect TRider] w
  ∧ snd (run (RiderViewSet.retrieve request pk0) w)
    = logged [DbSelect TRider] w
  ∧ snd (run (RiderViewSet.my_profile request) w)
    = logged [DbSelect TRider] w
  ∧ snd (run (PassengerViewSet.list request) w)
    = logged [DbSelect TPassenger] w
  ∧ snd (run (PassengerViewSet.retrieve request pk0) w)
    = logged [DbSelect TPassenger] w
  ∧ snd (run (PassengerViewSet.my_profile request) w)
    = logged [DbSelect TPassenger] w
  ∧ riders (snd (run (RiderViewSet.available_riders now request) w))
    = riders w
  ∧ passengers (snd (run (RiderViewSet.available_riders now request) w))
    = passengers w.
Proof.
  repeat split.
  - by rewrite Rider_list_run.
  - unfold RiderViewSet.retrieve, ModelViewSet.retrieve,
      ModelViewSet.get_object, RiderViewSet.get_queryset.
    destruct (User.is_staff (user request)); unfold_M; cbn.
    + by destruct (filter _ (riders w)) as [|x [|y l]].
    + by destruct (filter _ (filter _ (riders w))) as [|x [|y l]].
  - unfold RiderViewSet.my_profile. unfold_M; cbn.
    by destruct (filter _ (riders w)) as [|x [|y l]].
  - by rewrite Passenger_list_run.
  - unfold PassengerViewSet.retrieve, ModelViewSet.retrieve,
      ModelViewSet.get_object, PassengerViewSet.get_queryset.
    destruct (User.is_staff (user request)); unfold_M; cbn.
    + by destruct (filter _ (passengers w)) as [|x [|y l]].
    + by destruct (filter _ (filter _ (passengers w))) as [|x [|y l]].
  - unfold PassengerViewSet.my_profile. unfold_M; cbn.
    by destruct (filter _ (passengers w)) as [|x [|y l]].
  - rewrite available_riders_run. by destruct (Cache.peek _ _ _).
  - rewrite available_riders_run. by destruct (Cache.peek _ _ _).
Qed.

Lemma filter_owner_unique {A} (own : A → User.t) (l : list A) x u :
  NoDup ((λ y, User.id (own y)) <$> l) → x ∈ l →
  User.id (own x) = User.id u →
  filter (λ y, User.id (own y) = User.id u) l = [x].
Proof.
  intros Hnd Hx <-. apply (filter_pk_unique (λ y, User.id (own y)) l x Hnd Hx).
Qed.

(** X4: my_profile returns the requester's own profile with status 200, the
    staff flag playing no part: a staff requester gets their own profile,
    not the first of the table. *)
Theorem my_profile_own request w :
  (∀ r, NoDup ((λ y, User.id (Rider.user y)) <$> riders w) →
        r ∈ riders w →
        User.id (Rider.user r) = User.id (user request) →
        run (RiderViewSet.my_profile request) w
        = (Response_ok (BObject (to_representation r)),
           logged [DbSelect TRider] w))
  ∧ (∀ p, NoDup ((λ y, User.id (Passenger.user y)) <$> passengers w) →
          p ∈ passengers w →
          User.id (Passenger.user p) = User.id (user request) →
          run (PassengerViewSet.my_profile request) w
          = (Response_ok (BObject (to_representation p)),
             logged [DbSelect TPassenger] w)).
Proof.
  split.
  - intros r Hnd Hr Hown. unfold RiderViewSet.my_profile. unfold_M; cbn.
    by rewrite (filter_owner_unique Rider.user _ _ _ Hnd Hr Hown).
  - intros p Hnd Hp Hown. unfold PassengerViewSet.my_profile. unfold_M; cbn.
    by rewrite (filter_owner_unique Passenger.user _ _ _ Hnd Hp Hown).
Qed.

Lemma my_profile_own_witness :
  run (RiderViewSet.my_profile (Sample.get Sample.bob)) Sample.world
  = (Response_ok (BObject (to_representation Sample.rider_b)),
     logged [DbSelect TRider] Sample.world)
  ∧ run (PassengerViewSet.my_profile (Sample.get Sample.carol)) Sample.world
    = (Response_ok (BObject (to_representation Sample.passenger_c)),
       logged [DbSelect TPassenger] Sample.world).
Proof.
  split.
  - apply (proj1 (my_profile_own (Sample.get Sample.bob) Sample.world)).
    + apply (bool_decide_unpack _). by vm_compute.
    + vm_compute. right. left.
    + reflexivity.
  - apply (proj2 (my_profile_own (Sample.get Sample.carol) Sample.world)).
    + apply (bool_decide_unpack _). by vm_compute.
    + vm_compute. left.
    + reflexivity.
Defined.

(** [get_object] either ends the handler with 404 or 500, or hands over a
    row of the table that has the key and that the requester may access. *)
Lemma Rider_get_object_cases request pk0 w :
  (∃ resp, status resp ≠ HTTP_200_OK
           ∧ ModelViewSet.get_object RiderViewSet.get_queryset request pk0 w
             = (inl resp, logged [DbSelect TRider] w))
  ∨ (∃ rider, rider ∈ riders w ∧ Rider.id rider = pk0
              ∧ canAccess (user request) (Rider.user rider)
              ∧ ModelViewSet.get_object RiderViewSet.get_queryset request pk0 w
                = (inr rider, logged [DbSelect TRider] w)).
Proof.
  unfold ModelViewSet.get_object, RiderViewSet.get_queryset.
  destruct (User.is_staff (user request)) eqn:Hs; unfold_M; cbn.
  - destruct (filter _ (riders w)) as [|x [|y l]] eqn:Hf.
    + left. eexists. split; [|reflexivity]. cbn. discriminate.
    + right. exists x.
      assert (x ∈ filter (λ r, Rider.id r = pk0) (riders w)) as Hx
        by (rewrite Hf; left).
      apply list_elem_of_filter in Hx as [? ?].
      repeat split; try done. by left.
    + left. eexists. split; [|reflexivity]. cbn. discriminate.
  - destruct (filter _ (filter _ (riders w))) as [|x [|y l]] eqn:Hf.
    + left. eexists. split; [|reflexivity]. cbn. discriminate.
    + right. exists x.
      assert (x ∈ filter (λ r, Rider.id r = pk0)
                (filter (λ r, User.id (Rider.user r) = User.id (user request))
                   (riders w))) as Hx by (rewrite Hf; left).
      apply list_elem_of_filter in Hx as [? Hx].
      apply list_elem_of_filter in Hx as [? ?].
      repeat split; try done. by right.
    + left. eexists. split; [|reflexivity]. cbn. discriminate.
Qed.

Lemma Rider_get_object_status request pk0 w resp w' :
  ModelViewSet.get_object RiderViewSet.get_queryset request pk0 w
  = (inl resp, w') →
  status resp = HTTP_404_NOT_FOUND
  ∨ status resp = HTTP_500_INTERNAL_SERVER_ERROR.
Proof.
  unfold ModelViewSet.get_object, RiderViewSet.get_queryset.
  destruct (User.is_staff (user request)); unfold_M; cbn.
  - destruct (filter _ (riders w)) as [|x [|y l]]; intros [= <- _];
      (by left) || (by right).
  - destruct (filter _ (filter _ (riders w))) as [|x [|y l]];
      intros [= <- _]; (by left) || (by right).
Qed.

(** Every outcome of update_location on a table with distinct keys: it
    stops before it writes, or it writes the row of the rider addressed,
    the two coordinates apart as it was, and deletes the slot. *)
Lemma update_location_outcome {column : DecimalColumn} request pk0 w :
  NoDup (Rider.id <$> riders w) →
  (∃ resp, (status resp = HTTP_404_NOT_FOUND
            ∨ status resp = HTTP_500_INTERNAL_SERVER_ERROR)
           ∧ run (RiderViewSet.update_location request pk0) w
             = (resp, logged [DbSelect TRider] w))
  ∨ (∃ rider rider',
       rider ∈ riders w ∧ Rider.id rider = pk0
       ∧ canAccess (user request) (Rider.user rider)
       ∧ instance_under column_value (located request rider) = Some rider'
       ∧ run (RiderViewSet.update_location request pk0) w
         = (answer (instance_under shown_value (located request rider)),
            {| passengers := passengers w;
               riders := with_row pk0 rider' (riders w);
               cache := delete "available_riders" (cache w);
               trace := trace w ++ [DbSelect TRider; DbUpdate TRider pk0;
                                    CacheDelete "available_riders"] |})).
Proof.
  intros Hnd.
  destruct (Rider_get_object_cases request pk0 w)
    as [(resp & Hst & Hget)|(rider & Hin & Hpk & Hacc & Hget)].
  - left. exists resp. split; [by eapply Rider_get_object_status|].
    unfold RiderViewSet.update_location, run. by erewrite bind_inl.
  - subst pk0.
    pose proof (update_location_run request rider w
                  (Rider_row_of_key _ _ Hnd Hin) Hacc) as Hrun.
    destruct (instance_under column_value (located request rider))
      as [rider'|] eqn:Hsave.
    + right. by exists rider, rider'.
    + left. eexists. split; [|exact Hrun]. by right.
Qed.

Lemma with_row_Forall2 (R : Rider.t → Rider.t → Prop) pk0 rider rider'
    (l : list Rider.t) :
  NoDup (Rider.id <$> l) → rider ∈ l → Rider.id rider = pk0 →
  R rider rider' → (∀ r, Rider.id r ≠ pk0 → R r r) →
  Forall2 R l (with_row pk0 rider' l).
Proof.
  intros Hnd Hin Hpk Hnew Hrefl. unfold with_row.
  apply Forall2_fmap_r, Forall_Forall2_diag, Forall_forall.
  intros r Hr. unfold compose. case_bool_decide as Hk; [|by apply Hrefl].
  rewrite <- Hpk in Hk.
  by rewrite (unique_key_owner Rider.id l rider r Hnd Hin Hr Hk).
Qed.

(** X5: whatever the payload and the outcome, update_location changes
    nothing but the two coordinates of the rider addressed: every other
    row, every other attribute and the Passenger table stay.  Either the
    call stops before it writes, and then it leaves the store and the
    cache as they are, or it saves the row and then deletes the slot.
    The answer is 404, 200 or 500: a 404 is of the first kind, a 200 of
    the second, a 500 of either. *)
Theorem update_location_frame {column : DecimalColumn} request pk0 w :
  NoDup (Rider.id <$> riders w) →
  let call := run (RiderViewSet.update_location request pk0) w in
  passengers (snd call) = passengers w
  ∧ Forall2 (λ r r', if bool_decide (Rider.id r = pk0)
                     then coordinates_apart r r' else r' = r)
      (riders w) (riders (snd call))
  ∧ (snd call = logged [DbSelect TRider] w
     ∨ events_since w (snd call)
       = [DbSelect TRider; DbUpdate TRider pk0;
          CacheDelete "available_riders"]
       ∧ cache (snd call) = delete "available_riders" (cache w))
  ∧ (status (fst call) = HTTP_404_NOT_FOUND →
     snd call = logged [DbSelect TRider] w)
  ∧ (status (fst call) = HTTP_200_OK →
     events_since w (snd call)
     = [DbSelect TRider; DbUpdate TRider pk0; CacheDelete "available_riders"]
     ∧ cache (snd call) = delete "available_riders" (cache w))
  ∧ (status (fst call) = HTTP_200_OK ∨ status (fst call) = HTTP_404_NOT_FOUND
     ∨ status (fst call) = HTTP_500_INTERNAL_SERVER_ERROR).
Proof.
  intros Hnd call. subst call.
  destruct (update_location_outcome request pk0 w Hnd)
    as [(resp & Hst & Hrun)|(rider & rider' & Hin & Hpk & Hacc & Hsave & Hrun)];
    rewrite Hrun;
    cbn [fst snd passengers riders cache logged].
  - split; [done|]. split.
    { apply Forall_Forall2_diag, Forall_forall. intros r _.
      case_bool_decide; [apply coordinates_apart_refl|done]. }
    split; [by left|]. split; [done|].
    split; [by destruct Hst as [-> | ->]|].
    destruct Hst as [-> | ->]; [by right; left|by right; right].
  - split; [done|]. split.
    { apply (with_row_Forall2 _ pk0 rider); try done.
      + rewrite bool_decide_true by done.
        by apply (instance_under_apart column_value request).
      + intros r Hr. by rewrite bool_decide_false. }
    split; [right; split; [by apply events_since_app|done]|].
    split; [by destruct (instance_under shown_value _)|].
    split; [intros _; split; [by apply events_since_app|done]|].
    destruct (instance_under shown_value _); cbn; [by left|by right; right].
Qed.

Lemma update_location_frame_witness :
  let w := Sample.cached_world in
  let call :=
    run (RiderViewSet.update_location (column:=Sample.column)
           (Sample.patch Sample.bob {[ "current_latitude" := VBool true ]})
           11) w in
  passengers (snd call) = passengers w
  ∧ Forall2 (λ r r', if bool_decide (Rider.id r = 11)
                     then coordinates_apart r r' else r' = r)
      (riders w) (riders (snd call))
  ∧ (snd call = logged [DbSelect TRider] w
     ∨ events_since w (snd call)
       = [DbSelect TRider; DbUpdate TRider 11;
          CacheDelete "available_riders"]
       ∧ cache (snd call) = delete "available_riders" (cache w))
  ∧ (status (fst call) = HTTP_404_NOT_FOUND →
     snd call = logged [DbSelect TRider] w)
  ∧ (status (fst call) = HTTP_200_OK →
     events_since w (snd call)
     = [DbSelect TRider; DbUpdate TRider 11; CacheDelete "available_riders"]
     ∧ cache (snd call) = delete "available_riders" (cache w))
  ∧ (status (fst call) = HTTP_200_OK ∨ status (fst call) = HTTP_404_NOT_FOUND
     ∨ status (fst call) = HTTP_500_INTERNAL_SERVER_ERROR).
Proof.
  apply (update_location_frame (column:=Sample.column)
           (Sample.patch Sample.bob {[ "current_latitude" := VBool true ]})
           11 Sample.cached_world).
  apply (bool_decide_unpack _). by vm_compute.
Defined.

(** ** The same facts for the Passenger table *)

Lemma Passenger_get_object_found request pk0 passenger w :
  filter (λ p, Passenger.id p = pk0) (passengers w) = [passenger] →
  canAccess (user request) (Passenger.user passenger) →
  ModelViewSet.get_object PassengerViewSet.get_queryset request pk0 w
  = (inr passenger, logged [DbSelect TPassenger] w).
Proof.
  intros Hrow Hacc.
  unfold ModelViewSet.get_object, PassengerViewSet.get_queryset.
  destruct (User.is_staff (user request)) eqn:Hs; unfold_M; cbn.
  - by rewrite Hrow.
  - destruct Hacc as [?|Hown]; [congruence|].
    by rewrite (filter_pk_owned _ _ _ _ _ Hrow Hown).
Qed.

Lemma Passenger_save_run (x old : Passenger.t) w :
  filter (λ p, Passenger.id p = Passenger.id x) (passengers w) = [old] →
  Manager.save x w
  = (inr tt,
     {| passengers := (λ y, if bool_decide (Passenger.id y = Passenger.id x) then x else y)
                       <$> passengers w; riders := riders w;
        cache := cache w; trace := trace w ++ [DbUpdate TPassenger (Passenger.id x)] |}).
Proof.
  intros Hrow. unfold_M; cbn.
  rewrite bool_decide_true; [done|].
  apply Exists_exists. exists old.
  assert (old ∈ filter (λ p, Passenger.id p = Passenger.id x) (passengers w))
    as Hin by (rewrite Hrow; left).
  by apply list_elem_of_filter in Hin as [? ?].
Qed.

Lemma Passenger_update_run {options : FieldOptions}
    required partial request pk0 passenger vd w :
  filter (λ p, Passenger.id p = pk0) (passengers w) = [passenger] →
  canAccess (user request) (Passenger.user passenger) →
  to_internal_value (A:=Passenger.t) required partial
    (writable_fields (A:=Passenger.t)) (request_data request) = Some vd →
  run (PassengerViewSet.update required partial request pk0) w
  = (Response_ok (BObject (to_representation (assign vd passenger))),
     {| passengers := (λ y, if bool_decide (Passenger.id y = pk0)
                           then assign vd passenger else y)
                       <$> passengers w; riders := riders w;
        cache := cache w; trace := trace w ++ [DbSelect TPassenger; DbUpdate TPassenger pk0] |}).
Proof.
  intros Hrow Hacc Hvalid.
  assert (Passenger.id passenger = pk0) as Hpk.
  { assert (passenger ∈ filter (λ p, Passenger.id p = pk0) (passengers w))
      as Hin by (rewrite Hrow; left).
    by apply list_elem_of_filter in Hin as [? ?]. }
  destruct (Passenger_assign_read_only _ _ _ _ passenger Hvalid) as (Hid & _).
  unfold PassengerViewSet.update, ModelViewSet.update,
    ModelViewSet.perform_update, is_valid, run.
  rewrite Hvalid.
  erewrite bind_inr by (by apply Passenger_get_object_found).
  erewrite bind_inr by reflexivity.
  erewrite bind_inr.
  2:{ erewrite bind_inr; [reflexivity|].
      apply (Passenger_save_run _ passenger). cbn [logged passengers].
      by rewrite Hid, Hpk. }
  cbn. rewrite Hid, Hpk, <- app_assoc. done.
Qed.

Lemma Passenger_get_object_cases request pk0 w :
  (∃ resp, status resp ≠ HTTP_200_OK
           ∧ ModelViewSet.get_object PassengerViewSet.get_queryset request pk0
               w
             = (inl resp, logged [DbSelect TPassenger] w))
  ∨ (∃ passenger, passenger ∈ passengers w ∧ Passenger.id passenger = pk0
        ∧ canAccess (user request) (Passenger.user passenger)
        ∧ ModelViewSet.get_object PassengerViewSet.get_queryset request pk0 w
          = (inr passenger, logged [DbSelect TPassenger] w)).
Proof.
  unfold ModelViewSet.get_object, PassengerViewSet.get_queryset.
  destruct (User.is_staff (user request)) eqn:Hs; unfold_M; cbn.
  - destruct (filter _ (passengers w)) as [|x [|y l]] eqn:Hf.
    + left. eexists. split; [|reflexivity]. cbn. discriminate.
    + right. exists x.
      assert (x ∈ filter (λ p, Passenger.id p = pk0) (passengers w)) as Hx
        by (rewrite Hf; left).
      apply list_elem_of_filter in Hx as [? ?].
      repeat split; try done. by left.
    + left. eexists. split; [|reflexivity]. cbn. discriminate.
  - destruct (filter _ (filter _ (passengers w))) as [|x [|y l]] eqn:Hf.
    + left. eexists. split; [|reflexivity]. cbn. discriminate.
    + right. exists x.
      assert (x ∈ filter (λ p, Passenger.id p = pk0)
                (filter (λ p, User.id (Passenger.user p)
                              = User.id (user request)) (passengers w)))
        as Hx by (rewrite Hf; left).
      apply list_elem_of_filter in Hx as [? Hx].
      apply list_elem_of_filter in Hx as [? ?].
      repeat split; try done. by right.
    + left. eexists. split; [|reflexivity]. cbn. discriminate.
Qed.

(** Every outcome of the generic update on a table with distinct keys. *)
Lemma Rider_update_outcome {options : FieldOptions}
    required partial request pk0 w :
  NoDup (Rider.id <$> riders w) →
  (∃ resp, status resp ≠ HTTP_200_OK
           ∧ run (RiderViewSet.update required partial request pk0) w
             = (resp, logged [DbSelect TRider] w))
  ∨ (∃ rider vd,
       rider ∈ riders w ∧ Rider.id rider = pk0
       ∧ canAccess (user request) (Rider.user rider)
       ∧ to_internal_value (A:=Rider.t) required partial
           (writable_fields (A:=Rider.t)) (request_data request) = Some vd
       ∧ run (RiderViewSet.update required partial request pk0) w
         = (Response_ok (BObject (to_representation (assign vd rider))),
            {| passengers := passengers w; riders := (λ y, if bool_decide (Rider.id y = pk0)
                           then assign vd rider else y) <$> riders w;
        cache := cache w; trace := trace w ++ [DbSelect TRider; DbUpdate TRider pk0] |})).
Proof.
  intros Hnd.
  destruct (Rider_get_object_cases request pk0 w)
    as [(resp & Hst & Hget)|(rider & Hin & Hpk & Hacc & Hget)].
  - left. exists resp. split; [done|].
    unfold RiderViewSet.update, ModelViewSet.update, run.
    by erewrite bind_inl.
  - destruct (to_internal_value (A:=Rider.t) required partial
                (writable_fields (A:=Rider.t)) (request_data request))
      as [vd|] eqn:Hvalid.
    + right. exists rider, vd. repeat split; try done.
      apply Rider_update_run; try done. subst pk0.
      by apply (filter_pk_unique Rider.id).
    + left. eexists. split; [|
        unfold RiderViewSet.update, ModelViewSet.update, is_valid, run;
        erewrite bind_inr by exact Hget; rewrite Hvalid;
        erewrite bind_inl; reflexivity].
      cbn. discriminate.
Qed.

(** Every outcome of the generic update on a table with distinct keys. *)
Lemma Passenger_update_outcome {options : FieldOptions}
    required partial request pk0 w :
  NoDup (Passenger.id <$> passengers w) →
  (∃ resp, status resp ≠ HTTP_200_OK
           ∧ run (PassengerViewSet.update required partial request pk0) w
             = (resp, logged [DbSelect TPassenger] w))
  ∨ (∃ passenger vd,
       passenger ∈ passengers w ∧ Passenger.id passenger = pk0
       ∧ canAccess (user request) (Passenger.user passenger)
       ∧ to_internal_value (A:=Passenger.t) required partial
           (writable_fields (A:=Passenger.t)) (request_data request) = Some vd
       ∧ run (PassengerViewSet.update required partial request pk0) w
         = (Response_ok (BObject (to_representation (assign vd passenger))),
            {| passengers := (λ y, if bool_decide (Passenger.id y = pk0)
                           then assign vd passenger else y) <$> passengers w; riders := riders w;
        cache := cache w; trace := trace w ++ [DbSelect TPassenger; DbUpdate TPassenger pk0] |})).
Proof.
  intros Hnd.
  destruct (Passenger_get_object_cases request pk0 w)
    as [(resp & Hst & Hget)|(passenger & Hin & Hpk & Hacc & Hget)].
  - left. exists resp. split; [done|].
    unfold PassengerViewSet.update, ModelViewSet.update, run.
    by erewrite bind_inl.
  - destruct (to_internal_value (A:=Passenger.t) required partial
                (writable_fields (A:=Passenger.t)) (request_data request))
      as [vd|] eqn:Hvalid.
    + right. exists passenger, vd. repeat split; try done.
      apply Passenger_update_run; try done. subst pk0.
      by apply (filter_pk_unique Passenger.id).
    + left. eexists. split; [|
        unfold PassengerViewSet.update, ModelViewSet.update, is_valid, run;
        erewrite bind_inr by exact Hget; rewrite Hvalid;
        erewrite bind_inl; reflexivity].
      cbn. discriminate.
Qed.

(** ** What the write actions keep *)

Lemma replace_Forall2 {A} (key : A → Z) (R : A → A → Prop) pk0 x x'
    (l : list A) :
  NoDup (key <$> l) → x ∈ l → key x = pk0 →
  R x x' → (∀ y, key y ≠ pk0 → R y y) →
  Forall2 R l ((λ y, if bool_decide (key y = pk0) then x' else y) <$> l).
Proof.
  intros Hnd Hin Hpk Hnew Hrefl.
  apply Forall2_fmap_r, Forall_Forall2_diag, Forall_forall.
  intros y Hy. unfold compose. case_bool_decide as Hk; [|by apply Hrefl].
  rewrite <- Hpk in Hk.
  by rewrite (unique_key_owner key l x y Hnd Hin Hy Hk).
Qed.

Lemma Forall2_same_image {A B} (f : A → B) (R : A → A → Prop)
    (l l' : list A) :
  Forall2 R l l' → (∀ x y, R x y → f y = f x) → f <$> l' = f <$> l.
Proof.
  intros HR Hf. induction HR as [|x y l l' Hxy _ IH]; [done|].
  cbn. by rewrite (Hf x y Hxy), IH.
Qed.

Lemma Rider_update_rows {options : FieldOptions}
    required partial request pk0 w :
  NoDup (Rider.id <$> riders w) →
  let w' := snd (run (RiderViewSet.update required partial request pk0) w) in
  passengers w' = passengers w
  ∧ Forall2 (λ r r', if bool_decide (Rider.id r = pk0)
                     then read_only_same r r' else r' = r)
      (riders w) (riders w').
Proof.
  intros Hnd w'. subst w'.
  destruct (Rider_update_outcome required partial request pk0 w Hnd)
    as [(resp & Hst & Hrun)|(rider & vd & Hin & Hpk & Hacc & Hvd & Hrun)];
    rewrite Hrun; cbn [fst snd passengers riders logged].
  - split; [done|]. apply Forall_Forall2_diag, Forall_forall. intros r _.
    by case_bool_decide.
  - split; [done|].
    apply (replace_Forall2 Rider.id _ pk0 rider); try done.
    + rewrite bool_decide_true by done.
      exact (Rider_assign_read_only _ _ _ _ rider Hvd).
    + intros r Hr. by rewrite bool_decide_false.
Qed.

Lemma Passenger_update_rows {options : FieldOptions}
    required partial request pk0 w :
  NoDup (Passenger.id <$> passengers w) →
  let w' :=
    snd (run (PassengerViewSet.update required partial request pk0) w) in
  riders w' = riders w
  ∧ Forall2 (λ p p', if bool_decide (Passenger.id p = pk0)
                     then Passenger_read_only_same p p' else p' = p)
      (passengers w) (passengers w').
Proof.
  intros Hnd w'. subst w'.
  destruct (Passenger_update_outcome required partial request pk0 w Hnd)
    as [(resp & Hst & Hrun)|(p & vd & Hin & Hpk & Hacc & Hvd & Hrun)];
    rewrite Hrun; cbn [fst snd passengers riders logged].
  - split; [done|]. apply Forall_Forall2_diag, Forall_forall. intros r _.
    by case_bool_decide.
  - split; [done|].
    apply (replace_Forall2 Passenger.id _ pk0 p); try done.
    + rewrite bool_decide_true by done.
      exact (Passenger_assign_read_only _ _ _ _ p Hvd).
    + intros r Hr. by rewrite bool_decide_false.
Qed.

(** X6: whatever the payload, and although an assignment can set any
    attribute, update and partial_update change neither the key, the
    owner nor an attribute the serializer declares read-only (for a
    rider: average_rating, total_rides, total_earnings and created_at;
    for a passenger: created_at), since validation lets no key through
    that names one; they leave every other row as it is and leave the
    other table alone. *)
Theorem generic_update_keeps_read_only {options : FieldOptions}
    required partial request pk0 w :
  (NoDup (Rider.id <$> riders w) →
   let w' := snd (run (RiderViewSet.update required partial request pk0) w) in
   passengers w' = passengers w
   ∧ Forall2 (λ r r', if bool_decide (Rider.id r = pk0)
                      then read_only_same r r' else r' = r)
       (riders w) (riders w'))
  ∧ (NoDup (Passenger.id <$> passengers w) →
     let w' :=
       snd (run (PassengerViewSet.update required partial request pk0) w) in
     riders w' = riders w
     ∧ Forall2 (λ p p', if bool_decide (Passenger.id p = pk0)
                        then Passenger_read_only_same p p' else p' = p)
         (passengers w) (passengers w')).
Proof.
  split; intros Hnd.
  - exact (Rider_update_rows required partial request pk0 w Hnd).
  - exact (Passenger_update_rows required partial request pk0 w Hnd).
Qed.

Lemma generic_update_keeps_read_only_witness :
  let request :=
    Sample.patch Sample.bob
      {[ "total_earnings" := VDec 1000000; "average_rating" := VDec 5000000;
         "total_rides" := VInt 7; "created_at" := VInt 0;
         "user" := VUser Sample.alice; "id" := VInt 10;
         "is_available" := VBool true ]} in
  let w' := snd (run (RiderViewSet.update (options:=Sample.options)
      [] true request 11) Sample.world) in
  passengers w' = passengers Sample.world
  ∧ Forall2 (λ r r', if bool_decide (Rider.id r = 11)
                     then read_only_same r r' else r' = r)
      (riders Sample.world) (riders w').
Proof.
  apply (proj1 (generic_update_keeps_read_only (options:=Sample.options) [] true
                  (Sample.patch Sample.bob
                     {[ "total_earnings" := VDec 1000000;
                        "average_rating" := VDec 5000000;
                        "total_rides" := VInt 7; "created_at" := VInt 0;
                        "user" := VUser Sample.alice; "id" := VInt 10;
                        "is_available" := VBool true ]}) 11 Sample.world)).
  apply (bool_decide_unpack _). by vm_compute.
Defined.

Lemma update_location_rows {column : DecimalColumn} request pk0 w :
  NoDup (Rider.id <$> riders w) →
  let w' := snd (run (RiderViewSet.update_location request pk0) w) in
  passengers w' = passengers w
  ∧ Forall2 (λ r r', if bool_decide (Rider.id r = pk0)
                     then coordinates_apart r r' else r' = r)
      (riders w) (riders w').
Proof.
  intros Hnd w'. subst w'.
  destruct (update_location_outcome request pk0 w Hnd)
    as [(resp & Hst & Hrun)|(rider & rider' & Hin & Hpk & Hacc & Hsave & Hrun)];
    rewrite Hrun; cbn [fst snd passengers riders logged].
  - split; [done|]. apply Forall_Forall2_diag, Forall_forall. intros r _.
    case_bool_decide; [apply coordinates_apart_refl|done].
  - split; [done|].
    apply (replace_Forall2 Rider.id _ pk0 rider); try done.
    + rewrite bool_decide_true by done.
      by apply (instance_under_apart column_value request).
    + intros r Hr. by rewrite bool_decide_false.
Qed.

Lemma next_pk_fresh `{Model A} (l : list A) x : x ∈ l → pk x < next_pk l.
Proof.
  unfold next_pk. induction 1 as [x l|x y l _ IH]; cbn; lia.
Qed.

Lemma NoDup_snoc_image {A} (f : A → Z) (l : list A) x :
  NoDup (f <$> l) → (∀ y, y ∈ l → f y ≠ f x) → NoDup (f <$> (l ++ [x])).
Proof.
  intros Hnd Hfresh. rewrite fmap_app. apply NoDup_app.
  split; [done|]. split; [|apply NoDup_singleton].
  intros z Hz Hz'. apply list_elem_of_fmap in Hz as (y & -> & Hy).
  cbn in Hz'. apply list_elem_of_singleton in Hz'. by eapply Hfresh.
Qed.

(** X7: the updates keep the constraints of the two tables: after
    update, partial_update or update_location, with any payload and any
    outcome, primary keys are still distinct and no user has two
    profiles of a type, since no payload reaches the key or the owner of
    a row. *)
Theorem writes_keep_store_ok {options : FieldOptions} {column : DecimalColumn}
    required partial
    request pk0 w :
  store_ok w →
  store_ok (snd (run (RiderViewSet.update required partial request pk0) w))
  ∧ store_ok
      (snd (run (PassengerViewSet.update required partial request pk0) w))
  ∧ store_ok (snd (run (RiderViewSet.update_location request pk0) w)).
Proof.
  intros (Hrk & Hro & Hpk & Hpo). unfold store_ok.
  split; [|split].
  - destruct (Rider_update_rows required partial request pk0 w Hrk)
      as [-> HF].
    rewrite (Forall2_same_image Rider.id _ _ _ HF).
    2:{ intros x y Hxy. case_bool_decide; [by destruct Hxy|by subst y]. }
    rewrite (Forall2_same_image (λ r, User.id (Rider.user r)) _ _ _ HF).
    2:{ intros x y Hxy. case_bool_decide; [|by subst y].
        destruct Hxy as (_ & Hu & _). by rewrite Hu. }
    done.
  - destruct (Passenger_update_rows required partial request pk0 w Hpk)
      as [-> HF].
    rewrite (Forall2_same_image Passenger.id _ _ _ HF).
    2:{ intros x y Hxy. case_bool_decide; [by destruct Hxy|by subst y]. }
    rewrite (Forall2_same_image (λ r, User.id (Passenger.user r)) _ _ _ HF).
    2:{ intros x y Hxy. case_bool_decide; [|by subst y].
        destruct Hxy as (_ & Hu & _). by rewrite Hu. }
    done.
  - destruct (update_location_rows request pk0 w Hrk) as [-> HF].
    rewrite (Forall2_same_image Rider.id _ _ _ HF).
    2:{ intros x y Hxy. case_bool_decide; [|by subst y].
        by apply coordinates_apart_same in Hxy as [? ?]. }
    rewrite (Forall2_same_image (λ r, User.id (Rider.user r)) _ _ _ HF).
    2:{ intros x y Hxy. case_bool_decide; [|by subst y].
        apply coordinates_apart_same in Hxy as [_ Hu]. by rewrite Hu. }
    done.
Qed.

Lemma writes_keep_store_ok_witness :
  let request :=
    Sample.patch Sample.bob
      {[ "id" := VInt 10; "user" := VUser Sample.alice;
         "is_available" := VBool true; "current_latitude" := VBool true ]} in
  store_ok (snd (run (RiderViewSet.update (options:=Sample.options)
      [] true request 11) Sample.world))
  ∧ store_ok (snd (run (RiderViewSet.update_location (column:=Sample.column)
                          request 11) Sample.world)).
Proof.
  assert (store_ok Sample.world) as Hok.
  { repeat split; apply (bool_decide_unpack _); by vm_compute. }
  destruct (writes_keep_store_ok (options:=Sample.options) (column:=Sample.column)
      [] true
              (Sample.patch Sample.bob
                 {[ "id" := VInt 10; "user" := VUser Sample.alice;
                    "is_available" := VBool true;
                    "current_latitude" := VBool true ]}) 11
              Sample.world Hok) as (H1 & _ & H3).
  split; [exact H1|exact H3].
Defined.

(** ** create, then read *)

Lemma filter_snoc_fresh {A} (P : A → Prop) `{∀ x, Decision (P x)}
    (l : list A) x :
  (∀ y, y ∈ l → ¬ P y) → P x → filter P (l ++ [x]) = [x].
Proof.
  intros Hl Hx. rewrite filter_app, filter_none.
  - by rewrite filter_singleton_True.
  - by apply Forall_forall.
Qed.

(** X8: a profile that create has persisted is the one my_profile returns
    to the same requester, and the one retrieve returns for its id: both
    answer 200 with the very body of the 201. *)
Theorem create_then_read {options : FieldOptions} required now request w :
  (status (fst (run (RiderViewSet.create required now request) w))
   = HTTP_201_CREATED →
   let created := run (RiderViewSet.create required now request) w in
   ∃ r, data (fst created) = BObject (to_representation r)
        ∧ r ∈ riders (snd created)
        ∧ fst (run (RiderViewSet.my_profile request) (snd created))
          = Response_ok (BObject (to_representation r))
        ∧ fst (run (RiderViewSet.retrieve request (Rider.id r)) (snd created))
          = Response_ok (BObject (to_representation r)))
  ∧ (status (fst (run (PassengerViewSet.create required now request) w))
     = HTTP_201_CREATED →
     let created := run (PassengerViewSet.create required now request) w in
     ∃ p, data (fst created) = BObject (to_representation p)
          ∧ p ∈ passengers (snd created)
          ∧ fst (run (PassengerViewSet.my_profile request) (snd created))
            = Response_ok (BObject (to_representation p))
          ∧ fst (run (PassengerViewSet.retrieve request (Passenger.id p))
                   (snd created))
            = Response_ok (BObject (to_representation p))).
Proof.
  split.
  - pose proof (Rider_create_run required now request w) as Hrun.
    intros Hok created. subst created.
    destruct (to_internal_value _ _ _ _) as [vd|];
      [|rewrite Hrun in Hok; discriminate Hok].
    case_bool_decide as Hfree; [rewrite Hrun in Hok; discriminate Hok|].
    destruct Hrun as (r & Hu & Hid & Hrun). rewrite Hrun. cbn [fst snd data].
    set (w' := {| passengers := passengers w |}).
    assert (∀ y, y ∈ riders w →
                 ¬ User.id (Rider.user y) = User.id (user request)) as Hnone.
    { intros y Hy Hsame. apply Hfree, Exists_exists. eauto. }
    assert (filter (λ y, User.id (Rider.user y) = User.id (user request))
              (riders w') = [r]) as Hmine.
    { cbn. apply filter_snoc_fresh; [done|]. by rewrite Hu. }
    assert (filter (λ y, Rider.id y = Rider.id r) (riders w') = [r]) as Hrow.
    { cbn. apply filter_snoc_fresh; [|done]. intros y Hy Hk.
      pose proof (next_pk_fresh _ _ Hy) as Hlt. cbn in Hlt. lia. }
    exists r. split; [done|]. split; [apply elem_of_app; right; left|]. split.
    + unfold RiderViewSet.my_profile. unfold_M. cbn [riders rows Rider_model].
      by rewrite Hmine.
    + unfold RiderViewSet.retrieve, ModelViewSet.retrieve, run.
      erewrite bind_inr; [reflexivity|].
      apply Rider_get_object_found; [done|]. right. by rewrite Hu.
  - pose proof (Passenger_create_run required now request w) as Hrun.
    intros Hok created. subst created.
    destruct (to_internal_value _ _ _ _) as [vd|];
      [|rewrite Hrun in Hok; discriminate Hok].
    case_bool_decide as Hfree; [rewrite Hrun in Hok; discriminate Hok|].
    destruct Hrun as (p & Hu & Hid & Hrun). rewrite Hrun. cbn [fst snd data].
    set (w' := {| passengers := passengers w ++ [p] |}).
    assert (∀ y, y ∈ passengers w →
                 ¬ User.id (Passenger.user y) = User.id (user request))
      as Hnone.
    { intros y Hy Hsame. apply Hfree, Exists_exists. eauto. }
    assert (filter (λ y, User.id (Passenger.user y) = User.id (user request))
              (passengers w') = [p]) as Hmine.
    { cbn. apply filter_snoc_fresh; [done|]. by rewrite Hu. }
    assert (filter (λ y, Passenger.id y = Passenger.id p) (passengers w')
            = [p]) as Hrow.
    { cbn. apply filter_snoc_fresh; [|done]. intros y Hy Hk.
      pose proof (next_pk_fresh _ _ Hy) as Hlt. cbn in Hlt. lia. }
    exists p. split; [done|]. split; [apply elem_of_app; right; left|]. split.
    + unfold PassengerViewSet.my_profile. unfold_M.
      cbn [passengers rows Passenger_model]. by rewrite Hmine.
    + unfold PassengerViewSet.retrieve, ModelViewSet.retrieve, run.
      erewrite bind_inr; [reflexivity|].
      apply Passenger_get_object_found; [done|]. right. by rewrite Hu.
Qed.

Lemma create_then_read_witness :
  let created :=
    run (PassengerViewSet.create (options:=Sample.options) [] 4000
           (Sample.patch Sample.alice Sample.intruding_payload))
      Sample.world in
  ∃ p, data (fst created) = BObject (to_representation p)
       ∧ p ∈ passengers (snd created)
       ∧ fst (run (PassengerViewSet.my_profile
                     (Sample.patch Sample.alice Sample.intruding_payload))
                (snd created))
         = Response_ok (BObject (to_representation p))
       ∧ fst (run (PassengerViewSet.retrieve
                     (Sample.patch Sample.alice Sample.intruding_payload)
                     (Passenger.id p)) (snd created))
         = Response_ok (BObject (to_representation p)).
Proof.
  apply (proj2 (create_then_read (options:=Sample.options) [] 4000
                  (Sample.patch Sample.alice Sample.intruding_payload)
                  Sample.world)).
  vm_compute. reflexivity.
Defined.

(** ** A location update and the next listing *)

Lemma available_and_approved_apart r r' :
  coordinates_apart r r' → available_and_approved r →
  available_and_approved r'.
Proof. intros (x & y & ->) [? ?]. by destruct r. Qed.

(** X10: once update_location has written an available, approved rider,
    the next available_riders call, whenever it is made, lists the rider
    with the coordinates written: for a payload that leaves the
    coordinates x and y in the columns, the stored rider has x and y, and
    the view of the rider with x and y is in the next listing, whatever
    update_location answered; it is the view update_location answers
    with when the serializer shows x and y. *)
Theorem updated_location_is_listed {column : DecimalColumn} request rider x y
    now request' w :
  NoDup (Rider.id <$> riders w) →
  rider ∈ riders w →
  canAccess (user request) (Rider.user rider) →
  available_and_approved rider →
  supplied column_value (dict_get (request_data request) "current_latitude")
    (Rider.current_latitude rider) = Some x →
  supplied column_value (dict_get (request_data request) "current_longitude")
    (Rider.current_longitude rider) = Some y →
  let call := run (RiderViewSet.update_location request (Rider.id rider)) w in
  let rider' :=
    Rider.set_current_longitude y (Rider.set_current_latitude x rider) in
  let next := run (RiderViewSet.available_riders now request') (snd call) in
  riders (snd call) = with_row (Rider.id rider) rider' (riders w)
  ∧ rider' ∈ riders (snd call)
  ∧ Rider.current_latitude rider' = x ∧ Rider.current_longitude rider' = y
  ∧ to_representation rider' ∈ listed (fst next)
  ∧ (supplied shown_value (dict_get (request_data request) "current_latitude")
       (Rider.current_latitude rider) = Some x →
     supplied shown_value
       (dict_get (request_data request) "current_longitude")
       (Rider.current_longitude rider) = Some y →
     fst call = Response_ok (BObject (to_representation rider'))).
Proof.
  intros Hnd Hin Hacc Havail Hx Hy call rider' next. subst call next.
  pose proof (update_location_run request rider w
                (Rider_row_of_key _ _ Hnd Hin) Hacc) as Hrun.
  rewrite !instance_under_located, Hx, Hy in Hrun.
  fold rider' in Hrun. rewrite Hrun. cbn [fst snd riders].
  assert (rider' ∈ with_row (Rider.id rider) rider' (riders w)) as Hin'.
  { unfold with_row. apply list_elem_of_fmap. exists rider.
    by rewrite bool_decide_true. }
  split; [done|]. split; [done|].
  split; [by destruct rider|]. split; [by destruct rider|]. split.
  - rewrite available_riders_run. cbn [cache].
    rewrite peek_deleted. cbn [fst listed data Response_ok].
    unfold serialized_available. cbn [riders].
    apply list_elem_of_fmap_2, list_elem_of_filter. split; [|done].
    apply (available_and_approved_apart rider); [by exists x, y|done].
  - intros -> ->. done.
Qed.

Lemma updated_location_is_listed_witness :
  let request :=
    Sample.patch Sample.alice
      {[ "current_latitude" := VStr "-1.95";
         "current_longitude" := VBool true ]} in
  let call :=
    run (RiderViewSet.update_location (column:=Sample.column) request 10)
      Sample.cached_world in
  let rider' :=
    Rider.set_current_longitude (Some 1000000)
      (Rider.set_current_latitude (Some (-1950000)) Sample.rider_a) in
  rider' ∈ riders (snd call)
  ∧ to_representation rider'
    ∈ listed (fst (run (RiderViewSet.available_riders 3001
                          (Sample.get Sample.carol)) (snd call))).
Proof.
  destruct (updated_location_is_listed (column:=Sample.column)
              (Sample.patch Sample.alice
                 {[ "current_latitude" := VStr "-1.95";
                    "current_longitude" := VBool true ]})
              Sample.rider_a (Some (-1950000)) (Some 1000000)
              3001 (Sample.get Sample.carol) Sample.cached_world)
    as (_ & H2 & _ & _ & H5 & _).
  - apply (bool_decide_unpack _). by vm_compute.
  - vm_compute. left.
  - right. reflexivity.
  - split; reflexivity.
  - vm_compute. reflexivity.
  - vm_compute. reflexivity.
  - split; [exact H2|exact H5].
Defined.

(** ** Fields a client may write *)

Lemma Rider_validate_status {options : FieldOptions} required (s : string) :
  s ∈ ["pending"; "approved"; "rejected"] →
  to_internal_value (A:=Rider.t) required true (writable_fields (A:=Rider.t))
    {[ "verification_status" := VStr s ]}
  = Some {[ "verification_status" := VStr s ]}.
Proof.
  intros Hs.
  apply elem_of_cons in Hs as [->|Hs]; [vm_compute; reflexivity|].
  apply elem_of_cons in Hs as [->|Hs]; [vm_compute; reflexivity|].
  apply elem_of_cons in Hs as [->|Hs]; [vm_compute; reflexivity|].
  by apply elem_of_nil in Hs.
Qed.

(** X11: verification_status is a field a client may write: the owner of a
    rider, staff or not, who sends it in a partial update gets 200 and
    the stored rider has the status sent, every other attribute as
    before; "approved" makes an available rider pass the filter of
    available_riders. *)
Theorem owner_sets_verification_status {options : FieldOptions}
    required request rider s st w :
  NoDup (Rider.id <$> riders w) →
  rider ∈ riders w →
  User.id (Rider.user rider) = User.id (user request) →
  request_data request = {[ "verification_status" := VStr s ]} →
  status_of_string s = Some st →
  let call :=
    run (RiderViewSet.partial_update required request (Rider.id rider)) w in
  let rider' := Rider.set_verification_status st rider in
  fst call = Response_ok (BObject (to_representation rider'))
  ∧ riders (snd call) = with_row (Rider.id rider) rider' (riders w)
  ∧ cache (snd call) = cache w
  ∧ (st = approved → Rider.is_available rider = true →
     available_and_approved rider').
Proof.
  intros Hnd Hin Hown Hdata Hst call rider'. subst call.
  assert (s ∈ ["pending"; "approved"; "rejected"]) as Hs.
  { unfold status_of_string in Hst.
    repeat case_bool_decide; try discriminate Hst; subst s; set_solver. }
  unfold RiderViewSet.partial_update, ModelViewSet.partial_update.
  fold (RiderViewSet.update required true).
  rewrite (Rider_update_run required true request (Rider.id rider) rider
             {[ "verification_status" := VStr s ]} w
             (Rider_row_of_key _ _ Hnd Hin) (or_intror Hown))
    by (rewrite Hdata; by apply Rider_validate_status).
  assert (assign {[ "verification_status" := VStr s ]} rider = rider')
    as ->.
  { unfold assign. rewrite map_fold_singleton.
    cbn [setattr Rider_model]. unfold Rider_setattr.
    rewrite bool_decide_false by discriminate.
    rewrite bool_decide_false by discriminate.
    rewrite bool_decide_false by discriminate.
    rewrite bool_decide_false by discriminate.
    rewrite bool_decide_false by discriminate.
    rewrite bool_decide_true by done. by rewrite Hst. }
  cbn [fst snd riders cache]. split; [done|]. split; [done|].
  split; [done|]. intros -> Ha. split; [by destruct rider|done].
Qed.

Lemma owner_sets_verification_status_witness :
  let pending_b := Rider.set_verification_status pending Sample.rider_b in
  let w := set_riders [Sample.rider_a; pending_b] Sample.world in
  let call :=
    run (RiderViewSet.partial_update (options:=Sample.options) []
           (Sample.patch Sample.bob {[ "verification_status" := VStr "approved" ]})
           11) w in
  fst call = Response_ok (BObject (to_representation Sample.rider_b))
  ∧ riders (snd call) = [Sample.rider_a; Sample.rider_b].
Proof.
  destruct (owner_sets_verification_status (options:=Sample.options) []
              (Sample.patch Sample.bob
                 {[ "verification_status" := VStr "approved" ]})
              (Rider.set_verification_status pending Sample.rider_b)
              "approved" approved
              (set_riders [Sample.rider_a;
                           Rider.set_verification_status pending
                             Sample.rider_b] Sample.world))
    as (H1 & H2 & _).
  - apply (bool_decide_unpack _). by vm_compute.
  - vm_compute. right. left.
  - reflexivity.
  - reflexivity.
  - by vm_compute.
  - split; [exact H1|]. etrans; [exact H2|]. by vm_compute.
Defined.

(** ** Stored passwords *)

Lemma filter_fmap_same {A} (f : A → A) (P : A → Prop)
    `{∀ x, Decision (P x)} (l : list A) :
  (∀ x, P (f x) ↔ P x) → filter P (f <$> l) = f <$> filter P l.
Proof.
  intros Hf. induction l as [|x l IH]; [done|].
  rewrite fmap_cons, !filter_cons.
  destruct (decide (P x)) as [HP|HP].
  - rewrite decide_True by (by apply Hf). by rewrite fmap_cons, IH.
  - rewrite decide_False by (by rewrite Hf). done.
Qed.

Lemma fmap_through {A B} (f : A → A) (g : A → B) (l : list A) :
  (∀ x, g (f x) = g x) → g <$> (f <$> l) = g <$> l.
Proof.
  intros Hg. induction l as [|x l IH]; [done|].
  by rewrite !fmap_cons, Hg, IH.
Qed.

Section passwords.
Variable pw : User.t → string.

Let fr (r : Rider.t) : Rider.t :=
  Rider_with_owner (User_with_password (pw (Rider.user r)) (Rider.user r)) r.
Let fp (p : Passenger.t) : Passenger.t :=
  Passenger_with_owner
    (User_with_password (pw (Passenger.user p)) (Passenger.user p)) p.

Lemma Rider_view_without_password r :
  to_representation (fr r) = to_representation r.
Proof. by destruct r as [? []]. Qed.

Lemma Passenger_view_without_password p :
  to_representation (fp p) = to_representation p.
Proof. by destruct p as [? []]. Qed.

Lemma Rider_get_object_rekeyed request pk0 w :
  fst (run (RiderViewSet.retrieve request pk0) (with_passwords pw w))
  = fst (run (RiderViewSet.retrieve request pk0) w).
Proof.
  unfold RiderViewSet.retrieve, ModelViewSet.retrieve,
    ModelViewSet.get_object, RiderViewSet.get_queryset.
  destruct (User.is_staff (user request)); unfold_M;
    cbn [riders with_passwords rows Rider_model logged fst snd pk];
    fold fr.
  - rewrite (filter_fmap_same fr) by done.
    destruct (filter _ (riders w)) as [|x [|y l]]; cbn;
      rewrite ?Rider_view_without_password; done.
  - rewrite (filter_fmap_same fr) by done.
    rewrite (filter_fmap_same fr) by done.
    destruct (filter _ (filter _ (riders w))) as [|x [|y l]]; cbn;
      rewrite ?Rider_view_without_password; done.
Qed.

Lemma Passenger_get_object_rekeyed request pk0 w :
  fst (run (PassengerViewSet.retrieve request pk0) (with_passwords pw w))
  = fst (run (PassengerViewSet.retrieve request pk0) w).
Proof.
  unfold PassengerViewSet.retrieve, ModelViewSet.retrieve,
    ModelViewSet.get_object, PassengerViewSet.get_queryset.
  destruct (User.is_staff (user request)); unfold_M;
    cbn [passengers with_passwords rows Passenger_model logged fst snd pk];
    fold fp.
  - rewrite (filter_fmap_same fp) by done.
    destruct (filter _ (passengers w)) as [|x [|y l]]; cbn;
      rewrite ?Passenger_view_without_password; done.
  - rewrite (filter_fmap_same fp) by done.
    rewrite (filter_fmap_same fp) by done.
    destruct (filter _ (filter _ (passengers w))) as [|x [|y l]]; cbn;
      rewrite ?Passenger_view_without_password; done.
Qed.

Lemma serialized_available_rekeyed w :
  serialized_available (with_passwords pw w) = serialized_available w.
Proof.
  unfold serialized_available. cbn [riders with_passwords]. fold fr.
  rewrite (filter_fmap_same fr) by done.
  by rewrite (fmap_through fr _ _ Rider_view_without_password).
Qed.

(** X12: no response of a read action depends on a stored password: with
    the passwords of all profile owners replaced, list, retrieve and
    my_profile of either resource and available_riders answer the same,
    and available_riders leaves the same payload in the cache. *)
Theorem stored_passwords_never_shown now request pk0 w :
  fst (run (RiderViewSet.list request) (with_passwords pw w))
  = fst (run (RiderViewSet.list request) w)
  ∧ fst (run (RiderViewSet.retrieve request pk0) (with_passwords pw w))
    = fst (run (RiderViewSet.retrieve request pk0) w)
  ∧ fst (run (RiderViewSet.my_profile request) (with_passwords pw w))
    = fst (run (RiderViewSet.my_profile request) w)
  ∧ fst (run (PassengerViewSet.list request) (with_passwords pw w))
    = fst (run (PassengerViewSet.list request) w)
  ∧ fst (run (PassengerViewSet.retrieve request pk0) (with_passwords pw w))
    = fst (run (PassengerViewSet.retrieve request pk0) w)
  ∧ fst (run (PassengerViewSet.my_profile request) (with_passwords pw w))
    = fst (run (PassengerViewSet.my_profile request) w)
  ∧ fst (run (RiderViewSet.available_riders now request)
           (with_passwords pw w))
    = fst (run (RiderViewSet.available_riders now request) w)
  ∧ cache (snd (run (RiderViewSet.available_riders now request)
                  (with_passwords pw w)))
    = cache (snd (run (RiderViewSet.available_riders now request) w)).
Proof.
  split; [|split; [|split; [|split; [|split; [|split; [|split]]]]]].
  - rewrite !Rider_list_run. cbn [fst riders with_passwords]. fold fr.
    rewrite (filter_fmap_same fr) by done.
    by rewrite (fmap_through fr _ _ Rider_view_without_password).
  - apply Rider_get_object_rekeyed.
  - unfold RiderViewSet.my_profile. unfold_M.
    cbn [riders with_passwords rows Rider_model logged fst snd]. fold fr.
    rewrite (filter_fmap_same fr) by done.
    destruct (filter _ (riders w)) as [|x [|y l]]; cbn;
      rewrite ?Rider_view_without_password; done.
  - rewrite !Passenger_list_run. cbn [fst passengers with_passwords]. fold fp.
    rewrite (filter_fmap_same fp) by done.
    by rewrite (fmap_through fp _ _ Passenger_view_without_password).
  - apply Passenger_get_object_rekeyed.
  - unfold PassengerViewSet.my_profile. unfold_M.
    cbn [passengers with_passwords rows Passenger_model logged fst snd].
    fold fp.
    rewrite (filter_fmap_same fp) by done.
    destruct (filter _ (passengers w)) as [|x [|y l]]; cbn;
      rewrite ?Passenger_view_without_password; done.
  - rewrite !available_riders_run. cbn [cache with_passwords].
    rewrite serialized_available_rekeyed.
    by destruct (Cache.peek _ _ _).
  - rewrite !available_riders_run. cbn [cache with_passwords].
    rewrite serialized_available_rekeyed.
    by destruct (Cache.peek _ _ _).
Qed.
End passwords.

(** ** Registration *)

(** X13: a registration whose two passwords differ, or whose fields do not
    validate, is answered 400 and reaches neither create_user nor the
    token issuer: the identity store is as before.  For differing
    passwords the body is the message under "password". *)
Theorem registration_rejected {S} to_internal_value create_user for_user
    (payload : gmap string pyval) (s : S) :
  (∀ errors, to_internal_value payload = inl errors →
     UserViewSet.create to_internal_value create_user for_user payload s
     = ({| registration_data := FieldErrors errors;
           registration_status := 400 |}, s))
  ∧ (∀ attrs password password2,
       to_internal_value payload = inr attrs →
       attrs !! "password" = Some password →
       attrs !! "password2" = Some password2 →
       py_eq password password2 = false →
       UserViewSet.create to_internal_value create_user for_user payload s
       = ({| registration_data :=
               FieldErrors {[ "password" := "Password fields didn't match." ]};
             registration_status := 400 |}, s)).
Proof.
  split.
  - intros errors He. unfold UserViewSet.create, UserViewSet.is_valid.
    by rewrite He.
  - intros attrs p p2 Ha Hp Hp2 Hne.
    unfold UserViewSet.create, UserViewSet.is_valid,
      UserRegistrationSerializer.validate.
    by rewrite Ha, Hp, Hp2, Hne.
Qed.

Lemma registration_rejected_witness :
  UserViewSet.create SampleRegistration.to_internal_value
    SampleRegistration.create_user SampleRegistration.for_user
    SampleRegistration.differing []
  = ({| registration_data :=
          FieldErrors {[ "password" := "Password fields didn't match." ]};
        registration_status := 400 |}, []).
Proof.
  apply (proj2 (registration_rejected SampleRegistration.to_internal_value
                  SampleRegistration.create_user SampleRegistration.for_user
                  SampleRegistration.differing [])
           SampleRegistration.differing (VStr "s3cret-pass")
           (VStr "s3cret-pasS")).
  - vm_compute. reflexivity.
  - vm_compute. reflexivity.
  - vm_compute. reflexivity.
  - vm_compute. reflexivity.
Defined.

(** X14: a registration is answered 201 only if the fields validated and
    the two passwords are equal; the account is then created from the
    validated attributes without password2 (the password stays), and the
    body holds the view of that user by UserSerializer, the two tokens
    issued for that user and the message. *)
Theorem registration_created {S} to_internal_value create_user for_user
    (payload : gmap string pyval) (s : S) resp s'' :
  UserViewSet.create to_internal_value create_user for_user payload s
  = (resp, s'') →
  registration_status resp = HTTP_201_CREATED →
  ∃ attrs password password2 user s' refresh access,
    to_internal_value payload = inr attrs
    ∧ attrs !! "password" = Some password
    ∧ attrs !! "password2" = Some password2
    ∧ py_eq password password2 = true
    ∧ create_user (delete "password2" attrs) s = (Some user, s')
    ∧ delete "password2" attrs !! "password2" = None
    ∧ delete "password2" attrs !! "password" = Some password
    ∧ for_user user s' = (refresh, access, s'')
    ∧ registration_data resp
      = Registered (UserSerializer_data user) refresh access
          "User registered successfully".
Proof.
  unfold UserViewSet.create, UserViewSet.is_valid,
    UserRegistrationSerializer.validate, UserRegistrationSerializer.create.
  intros Hrun Hok.
  destruct (to_internal_value payload) as [errors|attrs] eqn:Ha;
    [injection Hrun as <- <-; discriminate Hok|].
  destruct (attrs !! "password") as [p|] eqn:Hp;
    [|injection Hrun as <- <-; discriminate Hok].
  destruct (attrs !! "password2") as [p2|] eqn:Hp2;
    [|injection Hrun as <- <-; discriminate Hok].
  destruct (py_eq p p2) eqn:Heq; cbn [negb] in Hrun;
    [|injection Hrun as <- <-; discriminate Hok].
  rewrite Hp2 in Hrun.
  destruct (create_user (delete "password2" attrs) s) as [[u|] s'] eqn:Hc;
    [|injection Hrun as <- <-; discriminate Hok].
  destruct (for_user u s') as [[refresh access] s3] eqn:Ht.
  injection Hrun as <- <-.
  exists attrs, p, p2, u, s', refresh, access.
  repeat split; try done.
  - apply lookup_delete_eq.
  - rewrite lookup_delete_ne; [done|]. intros Hk. discriminate Hk.
Qed.

Lemma registration_created_witness :
  let run :=
    UserViewSet.create SampleRegistration.to_internal_value
      SampleRegistration.create_user SampleRegistration.for_user
      SampleRegistration.matching [] in
  ∃ attrs password password2 user s' refresh access,
    SampleRegistration.to_internal_value SampleRegistration.matching
    = inr attrs
    ∧ attrs !! "password" = Some password
    ∧ attrs !! "password2" = Some password2
    ∧ py_eq password password2 = true
    ∧ SampleRegistration.create_user (delete "password2" attrs) []
      = (Some user, s')
    ∧ delete "password2" attrs !! "password2" = None
    ∧ delete "password2" attrs !! "password" = Some password
    ∧ SampleRegistration.for_user user s' = (refresh, access, snd run)
    ∧ registration_data (fst run)
      = Registered (UserSerializer_data user) refresh access
          "User registered successfully".
Proof.
  apply (registration_created SampleRegistration.to_internal_value
           SampleRegistration.create_user SampleRegistration.for_user
           SampleRegistration.matching []).
  - apply surjective_pairing.
  - vm_compute. reflexivity.
Defined.
